(** * DynamicLoadingScreen: the loading screen subsystem

    A shallow embedding of [ULoadingScreenSubsystem]
    (Private/LoadingScreenSubsystem.cpp with its header and
    [ULoadingScreenSettings]) and the properties of its decision logic.

    Conventions of the embedding:
    - a C++ [double] is a primitive binary64 float; the comparisons
      [<], [<=], [>] are the IEEE ones ([<?], [<=?] of [PrimFloat]) and
      [-] is the IEEE subtraction.  The [float] members (the configured hold
      time, the delegate argument) are binary32 values; widening to [double]
      is exact, so they are carried as the binary64 value they widen to;
    - an [FString] is a [string];
    - a pointer that the code tests against null is an [option];
    - member functions that write the subsystem's fields or call out to the
      engine are computations in the monad [M]: they thread the object and
      append to a log of the calls made on engine objects and delegates;
    - what the engine answers during one call (settings, clock, world,
      globals) is a record [Engine] passed to the call;
    - the viewport client is taken to be there where the code dereferences it
      unchecked.

    [GetAdditionalTimeRemaining], whose result is rounded to binary32, and
    the delegate registration of [Initialize] are left out: no property
    below reads them. *)

From Stdlib Require Import Bool List String ZArith PrimFloat Floats.
Import ListNotations.

Open Scope string_scope.
Open Scope float_scope.

(** ** Engine-side data *)

Definition FString : Type := string.

(** [FString::IsEmpty]. *)
Definition IsEmpty (s : FString) : bool :=
  match s with
  | EmptyString => true
  | String _ _ => false
  end.

(** [UWorld], as far as the subsystem looks at it. *)
Record UWorld : Type := mkWorld {
  HasBegunPlay : bool
}.

(** [FWorldContext]: [World()] may be null. *)
Record FWorldContext : Type := mkWorldContext {
  World : option UWorld
}.

(** [UGameInstance]: [GetWorldContext()] may be null. *)
Record UGameInstance : Type := mkGameInstance {
  GetWorldContext : option FWorldContext
}.

(** [ULoadingScreenSettings].  The soft class path member is called
    [LoadingScreenWidget] in the source; here it is
    [LoadingScreenWidgetClassPath], the name [LoadingScreenWidget] being the
    subsystem's own member below. *)
Record ULoadingScreenSettings : Type := mkSettings {
  LoadingScreenWidgetClassPath : FString;
  ZOrder : Z;
  HoldLoadingScreenAdditionalSecs : float;
  bForceDisplayLoadingScreen : bool;
  bLogLoadingScreenReason : bool;
  bShowLoadingScreenAdditionalSecsInEditor : bool
}.

(** The defaults of the header. *)
Definition DefaultSettings : ULoadingScreenSettings :=
  {| LoadingScreenWidgetClassPath := "";
     ZOrder := 10000%Z;
     HoldLoadingScreenAdditionalSecs := 2;
     bForceDisplayLoadingScreen := false;
     bLogLoadingScreenReason := false;
     bShowLoadingScreenAdditionalSecsInEditor := false |}.

(** What the engine answers while one member function runs. *)
Record Engine : Type := mkEngine {
  (** [GetDefault<ULoadingScreenSettings>()] *)
  Settings : ULoadingScreenSettings;
  (** [GetGameInstance()] *)
  GameInstance : UGameInstance;
  (** the global [GIsEditor] *)
  GIsEditor : bool;
  (** [FPlatformTime::Seconds()] *)
  Seconds : float;
  (** [GEngine->IsInitialized()] *)
  IsInitialized : bool;
  (** whether [TryLoadClass] and [UUserWidget::CreateWidgetInstance] yield a
      widget *)
  CreateWidgetInstance : bool;
  (** whether [GetGameViewportClient()] is non-null where the code tests it *)
  GameViewportClient : bool;
  (** whether the viewport has a world with world settings *)
  ViewportWorldSettings : bool
}.

(** The Slate widget held by the subsystem. *)
Inductive SWidget : Type :=
  | TakeWidget (WidgetClass : FString)
  | SThrobber.

(** Calls made on delegates and engine objects, in program order. *)
Inductive Event : Type :=
  | OnHoldTimeTriggeredDelegate (HoldTime : float)
  | OnVisibilityChangedDelegate (Visibility : bool)
  | AddViewportWidgetContent (Widget : SWidget) (Z_Order : Z)
  | RemoveViewportWidgetContent (Widget : SWidget)
  | bDisableWorldRendering (Value : bool)
  | bHighPriorityLoadingLocal (Value : bool)
  | SlateApplicationTick
  | LogWidgetLoadFailed (ClassPath : FString)
  | LogDisplayStatus (Status : bool) (Reason : FString).

(** ** The subsystem object *)

Record ULoadingScreenSubsystem : Type := mkSubsystem {
  LoadingScreenWidget : option SWidget;
  bIsDisplayingLoadingScreen : bool;
  LoadingScreenStateReason : FString;
  LoadingScreenLastDismissedTimestamp : float;
  bIsDisplayedByGameLogic : bool;
  UserSpecifiedLoadingScreenReason : FString
}.

(** The object as constructed: the member initialisers of the header, the
    remaining members zero-initialised. *)
Definition NewSubsystem : ULoadingScreenSubsystem :=
  {| LoadingScreenWidget := None;
     bIsDisplayingLoadingScreen := false;
     LoadingScreenStateReason := "";
     LoadingScreenLastDismissedTimestamp := -1;
     bIsDisplayedByGameLogic := false;
     UserSpecifiedLoadingScreenReason := "" |}.

(** ** The computation monad: the object threaded, the calls logged *)

Definition M (A : Type) : Type :=
  ULoadingScreenSubsystem -> A * ULoadingScreenSubsystem * list Event.

Definition ret {A : Type} (a : A) : M A := fun s => (a, s, []).

Definition bind {A B : Type} (m : M A) (k : A -> M B) : M B :=
  fun s =>
    let '(a, s1, l1) := m s in
    let '(b, s2, l2) := k a s1 in
    (b, s2, (l1 ++ l2)%list).

Notation "x <- m ;; k" := (bind m (fun x => k))
  (at level 61, m at next level, right associativity).
Notation "m ;;; k" := (bind m (fun _ => k))
  (at level 61, right associativity).

Definition gets {A : Type} (f : ULoadingScreenSubsystem -> A) : M A :=
  fun s => (f s, s, []).

Definition modify (f : ULoadingScreenSubsystem -> ULoadingScreenSubsystem)
  : M unit :=
  fun s => (tt, f s, []).

Definition call (e : Event) : M unit := fun s => (tt, s, [e]).

Definition when (b : bool) (m : M unit) : M unit :=
  if b then m else ret tt.

(** Projections of a run. *)
Definition result {A : Type} (r : A * ULoadingScreenSubsystem * list Event)
  : A := fst (fst r).
Definition object {A : Type} (r : A * ULoadingScreenSubsystem * list Event)
  : ULoadingScreenSubsystem := snd (fst r).
Definition calls {A : Type} (r : A * ULoadingScreenSubsystem * list Event)
  : list Event := snd r.

(** Assignments to the members: the object with one member replaced, and
    the assignment as a computation. *)
Definition with_LoadingScreenWidget (v : option SWidget)
  (s : ULoadingScreenSubsystem) : ULoadingScreenSubsystem :=
  {| LoadingScreenWidget := v;
     bIsDisplayingLoadingScreen := bIsDisplayingLoadingScreen s;
     LoadingScreenStateReason := LoadingScreenStateReason s;
     LoadingScreenLastDismissedTimestamp := LoadingScreenLastDismissedTimestamp s;
     bIsDisplayedByGameLogic := bIsDisplayedByGameLogic s;
     UserSpecifiedLoadingScreenReason := UserSpecifiedLoadingScreenReason s |}.

Definition set_LoadingScreenWidget (v : option SWidget) : M unit :=
  modify (with_LoadingScreenWidget v).

Definition with_bIsDisplayingLoadingScreen (v : bool)
  (s : ULoadingScreenSubsystem) : ULoadingScreenSubsystem :=
  {| LoadingScreenWidget := LoadingScreenWidget s;
     bIsDisplayingLoadingScreen := v;
     LoadingScreenStateReason := LoadingScreenStateReason s;
     LoadingScreenLastDismissedTimestamp := LoadingScreenLastDismissedTimestamp s;
     bIsDisplayedByGameLogic := bIsDisplayedByGameLogic s;
     UserSpecifiedLoadingScreenReason := UserSpecifiedLoadingScreenReason s |}.

Definition set_bIsDisplayingLoadingScreen (v : bool) : M unit :=
  modify (with_bIsDisplayingLoadingScreen v).

Definition with_LoadingScreenStateReason (v : FString)
  (s : ULoadingScreenSubsystem) : ULoadingScreenSubsystem :=
  {| LoadingScreenWidget := LoadingScreenWidget s;
     bIsDisplayingLoadingScreen := bIsDisplayingLoadingScreen s;
     LoadingScreenStateReason := v;
     LoadingScreenLastDismissedTimestamp := LoadingScreenLastDismissedTimestamp s;
     bIsDisplayedByGameLogic := bIsDisplayedByGameLogic s;
     UserSpecifiedLoadingScreenReason := UserSpecifiedLoadingScreenReason s |}.

Definition set_LoadingScreenStateReason (v : FString) : M unit :=
  modify (with_LoadingScreenStateReason v).

Definition with_LoadingScreenLastDismissedTimestamp (v : float)
  (s : ULoadingScreenSubsystem) : ULoadingScreenSubsystem :=
  {| LoadingScreenWidget := LoadingScreenWidget s;
     bIsDisplayingLoadingScreen := bIsDisplayingLoadingScreen s;
     LoadingScreenStateReason := LoadingScreenStateReason s;
     LoadingScreenLastDismissedTimestamp := v;
     bIsDisplayedByGameLogic := bIsDisplayedByGameLogic s;
     UserSpecifiedLoadingScreenReason := UserSpecifiedLoadingScreenReason s |}.

Definition set_LoadingScreenLastDismissedTimestamp (v : float) : M unit :=
  modify (with_LoadingScreenLastDismissedTimestamp v).

Definition with_bIsDisplayedByGameLogic (v : bool)
  (s : ULoadingScreenSubsystem) : ULoadingScreenSubsystem :=
  {| LoadingScreenWidget := LoadingScreenWidget s;
     bIsDisplayingLoadingScreen := bIsDisplayingLoadingScreen s;
     LoadingScreenStateReason := LoadingScreenStateReason s;
     LoadingScreenLastDismissedTimestamp := LoadingScreenLastDismissedTimestamp s;
     bIsDisplayedByGameLogic := v;
     UserSpecifiedLoadingScreenReason := UserSpecifiedLoadingScreenReason s |}.

Definition set_bIsDisplayedByGameLogic (v : bool) : M unit :=
  modify (with_bIsDisplayedByGameLogic v).

Definition with_UserSpecifiedLoadingScreenReason (v : FString)
  (s : ULoadingScreenSubsystem) : ULoadingScreenSubsystem :=
  {| LoadingScreenWidget := LoadingScreenWidget s;
     bIsDisplayingLoadingScreen := bIsDisplayingLoadingScreen s;
     LoadingScreenStateReason := LoadingScreenStateReason s;
     LoadingScreenLastDismissedTimestamp := LoadingScreenLastDismissedTimestamp s;
     bIsDisplayedByGameLogic := bIsDisplayedByGameLogic s;
     UserSpecifiedLoadingScreenReason := v |}.

Definition set_UserSpecifiedLoadingScreenReason (v : FString) : M unit :=
  modify (with_UserSpecifiedLoadingScreenReason v).

(** ** Queries and the command of game logic *)

Definition IsLoadingScreenDisplayed (s : ULoadingScreenSubsystem) : bool :=
  bIsDisplayingLoadingScreen s.

Definition ForceDisplayStateByGameLogic (Visibility : bool) (Reason : FString)
  : M unit :=
  set_UserSpecifiedLoadingScreenReason Reason ;;;
  set_bIsDisplayedByGameLogic Visibility.

Definition IsWaitingForAdditionalTime (E : Engine)
  (s : ULoadingScreenSubsystem) : bool :=
  if Bool.eqb (bIsDisplayingLoadingScreen s) false then false
  else if HoldLoadingScreenAdditionalSecs (Settings E) <=? 0 then false
  else if 0 <? LoadingScreenLastDismissedTimestamp s then true
  else false.

(** ** The blocking reasons *)

Definition CheckForDisplayReason (E : Engine) : M bool :=
  if Bool.eqb (bForceDisplayLoadingScreen (Settings E)) true then
    set_LoadingScreenStateReason
      "ForceDisplayLoadingScreen in settings is true" ;;;
    ret true
  else
    match GetWorldContext (GameInstance E) with
    | None =>
        set_LoadingScreenStateReason
          "The game instance has a null WorldContext" ;;;
        ret true
    | Some Context =>
        match World Context with
        | None =>
            set_LoadingScreenStateReason
              "We have no world is null, FWorldContext's World()" ;;;
            ret true
        | Some TheWorld =>
            if negb (HasBegunPlay TheWorld) then
              set_LoadingScreenStateReason "World hasn't begun play" ;;;
              ret true
            else
              ByGameLogic <- gets bIsDisplayedByGameLogic ;;
              if Bool.eqb ByGameLogic true then
                UserReason <- gets UserSpecifiedLoadingScreenReason ;;
                (if IsEmpty UserReason then
                   set_LoadingScreenStateReason
                     "Reason not specified in ForceDisplayStateByGameLogic. Assumed gameplay logic."
                 else
                   set_LoadingScreenStateReason UserReason) ;;;
                ret true
              else
                set_LoadingScreenStateReason "No reason to display." ;;;
                ret false
        end
    end.

(** ** Presentation glue *)

Definition ChangePerformanceSettings (E : Engine) (bEnabingLoadingScreen : bool)
  : M unit :=
  call (bDisableWorldRendering bEnabingLoadingScreen) ;;;
  when (ViewportWorldSettings E)
    (call (bHighPriorityLoadingLocal bEnabingLoadingScreen)).

Definition RemoveWidget (E : Engine) : M unit :=
  Widget <- gets LoadingScreenWidget ;;
  match Widget with
  | Some W =>
      when (GameViewportClient E) (call (RemoveViewportWidgetContent W)) ;;;
      set_LoadingScreenWidget None
  | None => ret tt
  end.

Definition ShowLoadingScreen (E : Engine) : M unit :=
  Displaying <- gets bIsDisplayingLoadingScreen ;;
  if Displaying then ret tt
  else
    set_bIsDisplayingLoadingScreen true ;;;
    Now <- gets bIsDisplayingLoadingScreen ;;
    call (OnVisibilityChangedDelegate Now) ;;;
    (if CreateWidgetInstance E then
       set_LoadingScreenWidget
         (Some (TakeWidget (LoadingScreenWidgetClassPath (Settings E))))
     else
       call (LogWidgetLoadFailed (LoadingScreenWidgetClassPath (Settings E))) ;;;
       set_LoadingScreenWidget (Some SThrobber)) ;;;
    Widget <- gets LoadingScreenWidget ;;
    match Widget with
    | Some W => call (AddViewportWidgetContent W (ZOrder (Settings E)))
    | None => ret tt
    end ;;;
    ChangePerformanceSettings E true ;;;
    when (negb (GIsEditor E)) (call SlateApplicationTick).

Definition HideLoadingScreen (E : Engine) : M unit :=
  Displaying <- gets bIsDisplayingLoadingScreen ;;
  if negb Displaying then ret tt
  else
    RemoveWidget E ;;;
    ChangePerformanceSettings E false ;;;
    set_bIsDisplayingLoadingScreen false ;;;
    Now <- gets bIsDisplayingLoadingScreen ;;
    call (OnVisibilityChangedDelegate Now).

(** ** The decision *)

(** The local [HoldLoadingScreenTime] of [ShouldShowLoadingScreen]: the
    configured hold time, or zero in the editor with the wait switched off. *)
Definition HoldLoadingScreenTime (E : Engine) : float :=
  if GIsEditor E
     && Bool.eqb (bShowLoadingScreenAdditionalSecsInEditor (Settings E)) false
  then 0
  else HoldLoadingScreenAdditionalSecs (Settings E).

(** ** Notions of the specification, read off the code *)

(** [LoadingScreenLastDismissedTimestamp] holds no timestamp when it is
    negative: this is the test under which [ShouldShowLoadingScreen] stamps
    it, and [-1.0] is what the header and the blocking branch store. *)
Definition TimestampIsNone (t : float) : bool := t <? 0.

Definition TimestampIsSet (t : float) : bool := negb (TimestampIsNone t).

(** The test of [ShouldShowLoadingScreen] that keeps the screen up: the hold
    time is positive and the time since the timestamp [t] is below it. *)
Definition InGraceWindow (E : Engine) (t : float) : bool :=
  (0 <? HoldLoadingScreenTime E) && (Seconds E - t <? HoldLoadingScreenTime E).

(** The specification's effective hold duration, after its words: the
    configured [holdAdditionalSeconds], except that it is 0 when running in
    an editor-like environment and [showHoldTimeInEditorLikeEnvironment] is
    false. *)
Definition effectiveHoldDuration (E : Engine) : float :=
  if GIsEditor E
     && negb (bShowLoadingScreenAdditionalSecsInEditor (Settings E))
  then 0
  else HoldLoadingScreenAdditionalSecs (Settings E).

(** The arguments of the hold-time broadcasts in a log, in order. *)
Fixpoint HoldTimeBroadcasts (l : list Event) : list float :=
  match l with
  | [] => []
  | OnHoldTimeTriggeredDelegate HoldTime :: rest =>
      HoldTime :: HoldTimeBroadcasts rest
  | _ :: rest => HoldTimeBroadcasts rest
  end.

(** The arguments of the visibility broadcasts in a log, in order. *)
Fixpoint VisibilityBroadcasts (l : list Event) : list bool :=
  match l with
  | [] => []
  | OnVisibilityChangedDelegate Visibility :: rest =>
      Visibility :: VisibilityBroadcasts rest
  | _ :: rest => VisibilityBroadcasts rest
  end.

(** The session queries of the specification. *)
Definition hasWorldContext (E : Engine) : bool :=
  match GetWorldContext (GameInstance E) with
  | Some _ => true
  | None => false
  end.

Definition worldExists (E : Engine) : bool :=
  match GetWorldContext (GameInstance E) with
  | Some Context =>
      match World Context with
      | Some _ => true
      | None => false
      end
  | None => false
  end.

Definition worldHasBegunPlay (E : Engine) : bool :=
  match GetWorldContext (GameInstance E) with
  | Some Context =>
      match World Context with
      | Some TheWorld => HasBegunPlay TheWorld
      | None => false
      end
  | None => false
  end.

(** The specification's [evaluateBlockingReason], after its words: five
    checks in a fixed order, each with its reason text; the earliest check
    that matches decides, and no match means no reason to display. *)
Definition BlockingChecks (E : Engine) (s : ULoadingScreenSubsystem)
  : list (bool * FString) :=
  [ (bForceDisplayLoadingScreen (Settings E),
     "ForceDisplayLoadingScreen in settings is true");
    (negb (hasWorldContext E),
     "The game instance has a null WorldContext");
    (negb (worldExists E),
     "We have no world is null, FWorldContext's World()");
    (negb (worldHasBegunPlay E),
     "World hasn't begun play");
    (bIsDisplayedByGameLogic s,
     if IsEmpty (UserSpecifiedLoadingScreenReason s)
     then "Reason not specified in ForceDisplayStateByGameLogic. Assumed gameplay logic."
     else UserSpecifiedLoadingScreenReason s) ].

Fixpoint first_match (checks : list (bool * FString)) : bool * FString :=
  match checks with
  | [] => (false, "No reason to display.")
  | (matches, reason) :: later =>
      if matches then (true, reason) else first_match later
  end.

Definition evaluateBlockingReason (E : Engine) (s : ULoadingScreenSubsystem)
  : bool * FString :=
  first_match (BlockingChecks E s).

(** ** Calls into the object

    One call into the object, by the engine or by game logic. *)
Inductive Call : Type :=
  | CallTick (E : Engine) (DeltaTime : float)
  | CallHandlePreLoadMap (E : Engine) (MapName : FString)
  | CallHandlePostLoadMap (E : Engine)
  | CallForceDisplayStateByGameLogic (Visibility : bool) (Reason : FString).

(** The engine answers under which a call evaluates the display state, if it
    does: every tick does, and the pre-load hook when the engine is
    initialised. *)
Definition evaluation_of (c : Call) : option Engine :=
  match c with
  | CallTick E _ => Some E
  | CallHandlePreLoadMap E _ => if IsInitialized E then Some E else None
  | CallHandlePostLoadMap _ => None
  | CallForceDisplayStateByGameLogic _ _ => None
  end.

(** The latest evaluation in a sequence of calls. *)
Fixpoint last_evaluation (cs : list Call) : option Engine :=
  match cs with
  | [] => None
  | c :: rest =>
      match last_evaluation rest with
      | Some E => Some E
      | None => evaluation_of c
      end
  end.

(** A call on the object over its whole life: one of the calls above, or
    the [Deinitialize] with which the engine ends it. *)
Inductive LifecycleCall : Type :=
  | WhileInitialized (c : Call)
  | CallDeinitialize (E : Engine).

Definition IsDeinitialize (c : LifecycleCall) : bool :=
  match c with
  | WhileInitialized _ => false
  | CallDeinitialize _ => true
  end.

(** ** Sample engine answers *)

(** A game instance whose world has begun play, and one whose world is still
    loading. *)
Definition PlayingInstance : UGameInstance :=
  {| GetWorldContext := Some {| World := Some {| HasBegunPlay := true |} |} |}.

Definition LoadingInstance : UGameInstance :=
  {| GetWorldContext := Some {| World := Some {| HasBegunPlay := false |} |} |}.

Definition SampleEngine (Config : ULoadingScreenSettings)
  (Instance : UGameInstance) (Editor : bool) (Now : float) : Engine :=
  {| Settings := Config;
     GameInstance := Instance;
     GIsEditor := Editor;
     Seconds := Now;
     IsInitialized := true;
     CreateWidgetInstance := true;
     GameViewportClient := true;
     ViewportWorldSettings := true |}.

(** The packaged game with the default settings (hold time 2 s), at clock
    reading [Now]: in play, and while the world loads. *)
Definition InGame (Now : float) : Engine :=
  SampleEngine DefaultSettings PlayingInstance false Now.

Definition WhileLoading (Now : float) : Engine :=
  SampleEngine DefaultSettings LoadingInstance false Now.

(** The editor with the default settings, in play. *)
Definition InEditor (Now : float) : Engine :=
  SampleEngine DefaultSettings PlayingInstance true Now.

(** The default settings with [bForceDisplayLoadingScreen] switched on. *)
Definition ForcedSettings : ULoadingScreenSettings :=
  {| LoadingScreenWidgetClassPath := "";
     ZOrder := 10000%Z;
     HoldLoadingScreenAdditionalSecs := 2;
     bForceDisplayLoadingScreen := true;
     bLogLoadingScreenReason := false;
     bShowLoadingScreenAdditionalSecsInEditor := false |}.

(** A formatter for the examples; it leaves the directive of the format
    string in place.  No statement below reads the formatted text. *)
Definition SamplePrintf (Format : string) (Value : float) : FString := Format.

(** ** Readings of the call log *)

(** The values written to [bDisableWorldRendering], in order. *)
Fixpoint WorldRenderingWrites (l : list Event) : list bool :=
  match l with
  | [] => []
  | bDisableWorldRendering Value :: rest => Value :: WorldRenderingWrites rest
  | _ :: rest => WorldRenderingWrites rest
  end.

(** The display status lines written to the log, in order. *)
Fixpoint LogEntries (l : list Event) : list (bool * FString) :=
  match l with
  | [] => []
  | LogDisplayStatus Status Reason :: rest =>
      (Status, Reason) :: LogEntries rest
  | _ :: rest => LogEntries rest
  end.

(** The number of Slate ticks requested. *)
Fixpoint SlateTicks (l : list Event) : nat :=
  match l with
  | [] => 0%nat
  | SlateApplicationTick :: rest => S (SlateTicks rest)
  | _ :: rest => SlateTicks rest
  end.

Definition SWidget_eqb (a b : SWidget) : bool :=
  match a, b with
  | TakeWidget x, TakeWidget y => String.eqb x y
  | SThrobber, SThrobber => true
  | _, _ => false
  end.

(** The widget attached to the viewport after the calls [l], when [Attached]
    was attached before them; [None] when the calls are out of step: a
    widget added while one is attached, or a widget removed that is not the
    one attached. *)
Fixpoint ViewportAttached (Attached : option SWidget) (l : list Event)
  : option (option SWidget) :=
  match l with
  | [] => Some Attached
  | AddViewportWidgetContent W _ :: rest =>
      match Attached with
      | None => ViewportAttached (Some W) rest
      | Some _ => None
      end
  | RemoveViewportWidgetContent W :: rest =>
      match Attached with
      | Some V => if SWidget_eqb V W then ViewportAttached None rest else None
      | None => None
      end
  | _ :: rest => ViewportAttached Attached rest
  end.

(** What the viewport calls of [l] leave attached, [Attached] being
    attached before them. *)
Fixpoint AttachedAfter (Attached : option SWidget) (l : list Event)
  : option SWidget :=
  match l with
  | [] => Attached
  | AddViewportWidgetContent W _ :: rest => AttachedAfter (Some W) rest
  | RemoveViewportWidgetContent _ :: rest => AttachedAfter None rest
  | _ :: rest => AttachedAfter Attached rest
  end.

(** The visibility broadcasts of [l], each with what is attached to the
    viewport at the moment it is made. *)
Fixpoint AttachedAtBroadcasts (Attached : option SWidget) (l : list Event)
  : list (bool * option SWidget) :=
  match l with
  | [] => []
  | OnVisibilityChangedDelegate Visibility :: rest =>
      (Visibility, Attached) :: AttachedAtBroadcasts Attached rest
  | AddViewportWidgetContent W _ :: rest =>
      AttachedAtBroadcasts (Some W) rest
  | RemoveViewportWidgetContent _ :: rest => AttachedAtBroadcasts None rest
  | _ :: rest => AttachedAtBroadcasts Attached rest
  end.

(** The values written to [bHighPriorityLoadingLocal], in order. *)
Fixpoint HighPriorityWrites (l : list Event) : list bool :=
  match l with
  | [] => []
  | bHighPriorityLoadingLocal Value :: rest => Value :: HighPriorityWrites rest
  | _ :: rest => HighPriorityWrites rest
  end.

(** A list of broadcast values that flips at every element, the first
    element being the negation of [from]. *)
Fixpoint Alternates (from : bool) (l : list bool) : Prop :=
  match l with
  | [] => True
  | b :: rest => b = negb from /\ Alternates b rest
  end.

(** The engine answers of the evaluations in a sequence of calls. *)
Fixpoint evaluations (cs : list Call) : list Engine :=
  match cs with
  | [] => []
  | c :: rest =>
      match evaluation_of c with
      | Some E => E :: evaluations rest
      | None => evaluations rest
      end
  end.

(** The arguments of the latest [ForceDisplayStateByGameLogic] in a sequence
    of calls. *)
Fixpoint last_force (cs : list Call) : option (bool * FString) :=
  match cs with
  | [] => None
  | c :: rest =>
      match last_force rest with
      | Some f => Some f
      | None =>
          match c with
          | CallForceDisplayStateByGameLogic Visibility Reason =>
              Some (Visibility, Reason)
          | _ => None
          end
      end
  end.

(** The engine answers [E] with the outcome of the widget creation
    replaced. *)
Definition with_CreateWidgetInstance (Created : bool) (E : Engine) : Engine :=
  {| Settings := Settings E;
     GameInstance := GameInstance E;
     GIsEditor := GIsEditor E;
     Seconds := Seconds E;
     IsInitialized := IsInitialized E;
     CreateWidgetInstance := Created;
     GameViewportClient := GameViewportClient E;
     ViewportWorldSettings := ViewportWorldSettings E |}.

(** The widget [ShowLoadingScreen] ends up with: the one of the configured
    class, or the throbber when that cannot be created. *)
Definition ShownWidget (E : Engine) : SWidget :=
  if CreateWidgetInstance E
  then TakeWidget (LoadingScreenWidgetClassPath (Settings E))
  else SThrobber.

(** The last element of a list of broadcast values, [from] when there is
    none. *)
Definition LastBroadcast (from : bool) (l : list bool) : bool :=
  fold_left (fun _ b => b) l from.

(** The last value written to [bDisableWorldRendering], if any. *)
Definition LastWorldRenderingWrite (l : list Event) : option bool :=
  fold_left (fun _ b => Some b) (WorldRenderingWrites l) None.

(** The object holds a widget exactly when it has the screen displayed. *)
Definition WidgetMatchesDisplay (s : ULoadingScreenSubsystem) : Prop :=
  match LoadingScreenWidget s with
  | Some _ => bIsDisplayingLoadingScreen s = true
  | None => bIsDisplayingLoadingScreen s = false
  end.

(** A held widget needs the screen displayed; the screen is displayed
    without a widget only under [Excuse]. *)
Definition WidgetNeedsDisplay (Excuse : Prop) (s : ULoadingScreenSubsystem)
  : Prop :=
  match LoadingScreenWidget s with
  | Some _ => bIsDisplayingLoadingScreen s = true
  | None => bIsDisplayingLoadingScreen s = false \/ Excuse
  end.

(** The calls of [ShowLoadingScreen] on a hidden screen. *)
Definition ShowCalls (E : Engine) : list Event :=
  (OnVisibilityChangedDelegate true
   :: (if CreateWidgetInstance E then []
       else [LogWidgetLoadFailed (LoadingScreenWidgetClassPath (Settings E))])
   ++ [AddViewportWidgetContent (ShownWidget E) (ZOrder (Settings E));
       bDisableWorldRendering true]
   ++ (if ViewportWorldSettings E then [bHighPriorityLoadingLocal true]
       else [])
   ++ (if GIsEditor E then [] else [SlateApplicationTick]))%list.

(** The calls of [HideLoadingScreen] on a displayed screen that holds
    [Widget]. *)
Definition HideCalls (E : Engine) (Widget : option SWidget) : list Event :=
  ((match Widget with
    | Some W =>
        if GameViewportClient E then [RemoveViewportWidgetContent W] else []
    | None => []
    end)
   ++ [bDisableWorldRendering false]
   ++ (if ViewportWorldSettings E then [bHighPriorityLoadingLocal false]
       else [])
   ++ [OnVisibilityChangedDelegate false])%list.

Section Subsystem.

(** [FString::Printf] with one [double] argument; the engine's formatter is
    not part of the repository. *)
Variable Printf : string -> float -> FString.

Definition ShouldShowLoadingScreen (E : Engine) : M bool :=
  bNeedToShowLoadingScreen <- CheckForDisplayReason E ;;
  bForcedToShowLoadingScreen <-
    (if bNeedToShowLoadingScreen then
       set_LoadingScreenLastDismissedTimestamp (-1) ;;;
       ret false
     else
       let CurrentTime := Seconds E in
       let HoldTime := HoldLoadingScreenTime E in
       Stamp <- gets LoadingScreenLastDismissedTimestamp ;;
       when (Stamp <? 0)
         (set_LoadingScreenLastDismissedTimestamp CurrentTime ;;;
          call (OnHoldTimeTriggeredDelegate HoldTime)) ;;;
       Dismissed <- gets LoadingScreenLastDismissedTimestamp ;;
       let TimeSinceScreenDismissed := CurrentTime - Dismissed in
       if (0 <? HoldTime) && (TimeSinceScreenDismissed <? HoldTime) then
         call (bDisableWorldRendering false) ;;;
         set_LoadingScreenStateReason
           (Printf
              "Keeping loading screen up for an additional %.2f seconds to allow texture streaming"
              (HoldLoadingScreenAdditionalSecs (Settings E))) ;;;
         ret true
       else ret false) ;;
  ret (bNeedToShowLoadingScreen || bForcedToShowLoadingScreen).

(** The reason text stored by the hold branch. *)
Definition HoldReason (E : Engine) : FString :=
  Printf
    "Keeping loading screen up for an additional %.2f seconds to allow texture streaming"
    (HoldLoadingScreenAdditionalSecs (Settings E)).

Definition UpdateLoadingScreen (E : Engine) : M unit :=
  bShow <- ShouldShowLoadingScreen E ;;
  (if bShow then ShowLoadingScreen E else HideLoadingScreen E) ;;;
  when (Bool.eqb (bLogLoadingScreenReason (Settings E)) true)
    (Displaying <- gets bIsDisplayingLoadingScreen ;;
     Reason <- gets LoadingScreenStateReason ;;
     call (LogDisplayStatus Displaying Reason)).

(** ** Entry points called by the engine *)

Definition Tick (E : Engine) (DeltaTime : float) : M unit :=
  UpdateLoadingScreen E.

Definition HandlePreLoadMap (E : Engine) (MapName : FString) : M unit :=
  when (IsInitialized E) (UpdateLoadingScreen E).

Definition HandlePostLoadMap (E : Engine) : M unit := ret tt.

Definition Deinitialize (E : Engine) : M unit := RemoveWidget E.

(** ** Runs of the subsystem *)

Definition perform (c : Call) : M unit :=
  match c with
  | CallTick E DeltaTime => Tick E DeltaTime
  | CallHandlePreLoadMap E MapName => HandlePreLoadMap E MapName
  | CallHandlePostLoadMap E => HandlePostLoadMap E
  | CallForceDisplayStateByGameLogic Visibility Reason =>
      ForceDisplayStateByGameLogic Visibility Reason
  end.

Fixpoint perform_all (cs : list Call) : M unit :=
  match cs with
  | [] => ret tt
  | c :: rest => perform c ;;; perform_all rest
  end.

(** The objects a run can leave behind. *)
Definition reachable (s : ULoadingScreenSubsystem) : Prop :=
  exists cs, object (perform_all cs NewSubsystem) = s.

(** Runs over the whole life of the object. *)
Definition perform_lifecycle (c : LifecycleCall) : M unit :=
  match c with
  | WhileInitialized c => perform c
  | CallDeinitialize E => Deinitialize E
  end.

Fixpoint perform_lifecycle_all (cs : list LifecycleCall) : M unit :=
  match cs with
  | [] => ret tt
  | c :: rest => perform_lifecycle c ;;; perform_lifecycle_all rest
  end.

(** A run of evaluations, one per frame. *)
Fixpoint evaluate_all (Es : list Engine) : M unit :=
  match Es with
  | [] => ret tt
  | E :: rest => UpdateLoadingScreen E ;;; evaluate_all rest
  end.


(** ** Properties *)

(** *** The blocking reasons *)

(** [CheckForDisplayReason] computes the first matching check and stores its
    reason text; nothing else is written and nothing is called. *)
Lemma CheckForDisplayReason_eq (E : Engine) (s : ULoadingScreenSubsystem) :
  CheckForDisplayReason E s =
    (fst (evaluateBlockingReason E s),
     with_LoadingScreenStateReason (snd (evaluateBlockingReason E s)) s,
     []).
Proof.
  unfold CheckForDisplayReason, evaluateBlockingReason, BlockingChecks,
    hasWorldContext, worldExists, worldHasBegunPlay.
  destruct (bForceDisplayLoadingScreen (Settings E)); [reflexivity|].
  destruct (GetWorldContext (GameInstance E)) as [Context|]; [|reflexivity].
  destruct (World Context) as [TheWorld|]; [|reflexivity].
  destruct (HasBegunPlay TheWorld); [|reflexivity].
  cbn. unfold bind, gets.
  destruct (bIsDisplayedByGameLogic s); [|reflexivity].
  cbn. destruct (IsEmpty (UserSpecifiedLoadingScreenReason s)); reflexivity.
Qed.

(** C1.  [CheckForDisplayReason] tries its five checks in the fixed order
    (forced by the settings, null world context, null world, world has not
    begun play, game-logic flag) and returns true with the reason of the
    earliest check that matches -- for the game-logic flag the reason given by
    the caller, or the placeholder when that is empty -- and false with
    "No reason to display." only when none matches.  It writes the stored
    reason and no other member, and makes no call. *)
Theorem CheckForDisplayReason_first_match_wins
  (E : Engine) (s : ULoadingScreenSubsystem) :
  result (CheckForDisplayReason E s) = fst (first_match (BlockingChecks E s))
  /\ LoadingScreenStateReason (object (CheckForDisplayReason E s))
     = snd (first_match (BlockingChecks E s))
  /\ object (CheckForDisplayReason E s)
     = with_LoadingScreenStateReason
         (LoadingScreenStateReason (object (CheckForDisplayReason E s))) s
  /\ calls (CheckForDisplayReason E s) = []
  /\ (result (CheckForDisplayReason E s) = false <->
      Forall (fun check => fst check = false) (BlockingChecks E s))
  /\ (result (CheckForDisplayReason E s) = false ->
      LoadingScreenStateReason (object (CheckForDisplayReason E s))
      = "No reason to display.").
Proof.
  rewrite CheckForDisplayReason_eq. unfold result, object, calls. cbn [fst snd].
  fold (evaluateBlockingReason E s).
  repeat split.
  - unfold evaluateBlockingReason.
    induction (BlockingChecks E s) as [|[matches reason] later IH]; intros H.
    + constructor.
    + cbn in H. destruct matches; [discriminate|].
      constructor; [reflexivity | exact (IH H)].
  - unfold evaluateBlockingReason.
    induction (BlockingChecks E s) as [|[matches reason] later IH]; intros H.
    + reflexivity.
    + inversion H as [|? ? Hhead Hlater]; subst. cbn in Hhead. subst matches.
      cbn. exact (IH Hlater).
  - unfold evaluateBlockingReason.
    induction (BlockingChecks E s) as [|[matches reason] later IH]; intros H.
    + reflexivity.
    + cbn in H |- *. destruct matches; [discriminate | exact (IH H)].
Qed.

(** *** The decision *)

Lemma CheckForDisplayReason_result (E : Engine) (s : ULoadingScreenSubsystem) :
  result (CheckForDisplayReason E s) = fst (evaluateBlockingReason E s).
Proof. rewrite CheckForDisplayReason_eq. reflexivity. Qed.

(** With a blocking reason the timestamp is reset and the answer is true. *)
Lemma ShouldShowLoadingScreen_blocking
  (E : Engine) (s : ULoadingScreenSubsystem) :
  result (CheckForDisplayReason E s) = true ->
  ShouldShowLoadingScreen E s =
    (true,
     with_LoadingScreenLastDismissedTimestamp (-1)
       (with_LoadingScreenStateReason (snd (evaluateBlockingReason E s)) s),
     []).
Proof.
  rewrite CheckForDisplayReason_result. intros Hblock.
  unfold ShouldShowLoadingScreen, bind.
  rewrite CheckForDisplayReason_eq, Hblock. reflexivity.
Qed.

(** Without one, the timestamp is taken on the first such evaluation and the
    answer is the grace-window test against it. *)
Lemma ShouldShowLoadingScreen_clear
  (E : Engine) (s : ULoadingScreenSubsystem) :
  result (CheckForDisplayReason E s) = false ->
  ShouldShowLoadingScreen E s =
    let s0 :=
      with_LoadingScreenStateReason (snd (evaluateBlockingReason E s)) s in
    let Stamped :=
      TimestampIsNone (LoadingScreenLastDismissedTimestamp s) in
    let Dismissed :=
      if Stamped then Seconds E else LoadingScreenLastDismissedTimestamp s in
    let s1 :=
      if Stamped
      then with_LoadingScreenLastDismissedTimestamp (Seconds E) s0
      else s0 in
    let Broadcast :=
      if Stamped
      then [OnHoldTimeTriggeredDelegate (HoldLoadingScreenTime E)]
      else [] in
    if InGraceWindow E Dismissed
    then (true, with_LoadingScreenStateReason (HoldReason E) s1,
          (Broadcast ++ [bDisableWorldRendering false])%list)
    else (false, s1, Broadcast).
Proof.
  rewrite CheckForDisplayReason_result. intros Hclear.
  unfold ShouldShowLoadingScreen, bind.
  rewrite CheckForDisplayReason_eq, Hclear.
  unfold TimestampIsNone, InGraceWindow, HoldReason. cbn.
  destruct (LoadingScreenLastDismissedTimestamp s <? 0); cbn;
    match goal with
    | |- context [if ?c then _ else _] => destruct c
    end; reflexivity.
Qed.

(** The decision leaves the display state and the game-logic members alone
    and broadcasts no visibility change. *)
Lemma ShouldShowLoadingScreen_frame
  (E : Engine) (s : ULoadingScreenSubsystem) :
  let r := ShouldShowLoadingScreen E s in
  bIsDisplayingLoadingScreen (object r) = bIsDisplayingLoadingScreen s
  /\ LoadingScreenWidget (object r) = LoadingScreenWidget s
  /\ bIsDisplayedByGameLogic (object r) = bIsDisplayedByGameLogic s
  /\ UserSpecifiedLoadingScreenReason (object r)
     = UserSpecifiedLoadingScreenReason s
  /\ VisibilityBroadcasts (calls r) = [].
Proof.
  destruct (result (CheckForDisplayReason E s)) eqn:Hcheck; cbv zeta.
  - rewrite (ShouldShowLoadingScreen_blocking E s Hcheck).
    repeat split.
  - rewrite (ShouldShowLoadingScreen_clear E s Hcheck). cbv zeta.
    destruct (InGraceWindow E _),
      (TimestampIsNone (LoadingScreenLastDismissedTimestamp s));
      repeat split.
Qed.

(** *** Showing and hiding *)

Lemma HoldTimeBroadcasts_app (l1 l2 : list Event) :
  HoldTimeBroadcasts (l1 ++ l2)
  = (HoldTimeBroadcasts l1 ++ HoldTimeBroadcasts l2)%list.
Proof.
  induction l1 as [|e l1 IH]; [reflexivity|].
  destruct e; cbn; rewrite IH; reflexivity.
Qed.

Lemma VisibilityBroadcasts_app (l1 l2 : list Event) :
  VisibilityBroadcasts (l1 ++ l2)
  = (VisibilityBroadcasts l1 ++ VisibilityBroadcasts l2)%list.
Proof.
  induction l1 as [|e l1 IH]; [reflexivity|].
  destruct e; cbn; rewrite IH; reflexivity.
Qed.

(** Showing a screen that is already up does nothing. *)
Lemma ShowLoadingScreen_displayed (E : Engine) (s : ULoadingScreenSubsystem) :
  bIsDisplayingLoadingScreen s = true ->
  ShowLoadingScreen E s = (tt, s, []).
Proof.
  intros Hshown. unfold ShowLoadingScreen, bind, gets.
  rewrite Hshown. reflexivity.
Qed.

(** Hiding a screen that is already down does nothing. *)
Lemma HideLoadingScreen_hidden (E : Engine) (s : ULoadingScreenSubsystem) :
  bIsDisplayingLoadingScreen s = false ->
  HideLoadingScreen E s = (tt, s, []).
Proof.
  intros Hhidden. unfold HideLoadingScreen, bind, gets.
  rewrite Hhidden. reflexivity.
Qed.

(** What [ShowLoadingScreen] leaves behind. *)
Lemma ShowLoadingScreen_effect (E : Engine) (s : ULoadingScreenSubsystem) :
  let r := ShowLoadingScreen E s in
  bIsDisplayingLoadingScreen (object r) = true
  /\ LoadingScreenStateReason (object r) = LoadingScreenStateReason s
  /\ LoadingScreenLastDismissedTimestamp (object r)
     = LoadingScreenLastDismissedTimestamp s
  /\ bIsDisplayedByGameLogic (object r) = bIsDisplayedByGameLogic s
  /\ UserSpecifiedLoadingScreenReason (object r)
     = UserSpecifiedLoadingScreenReason s
  /\ HoldTimeBroadcasts (calls r) = []
  /\ VisibilityBroadcasts (calls r)
     = if bIsDisplayingLoadingScreen s then [] else [true].
Proof.
  cbv zeta.
  destruct (bIsDisplayingLoadingScreen s) eqn:Hshown.
  - rewrite (ShowLoadingScreen_displayed E s Hshown). repeat split.
    exact Hshown.
  - unfold ShowLoadingScreen, ChangePerformanceSettings, bind, gets, when.
    rewrite Hshown.
    destruct (CreateWidgetInstance E), (ViewportWorldSettings E),
      (GIsEditor E); repeat split.
Qed.

(** What [HideLoadingScreen] leaves behind. *)
Lemma HideLoadingScreen_effect (E : Engine) (s : ULoadingScreenSubsystem) :
  let r := HideLoadingScreen E s in
  bIsDisplayingLoadingScreen (object r) = false
  /\ LoadingScreenStateReason (object r) = LoadingScreenStateReason s
  /\ LoadingScreenLastDismissedTimestamp (object r)
     = LoadingScreenLastDismissedTimestamp s
  /\ bIsDisplayedByGameLogic (object r) = bIsDisplayedByGameLogic s
  /\ UserSpecifiedLoadingScreenReason (object r)
     = UserSpecifiedLoadingScreenReason s
  /\ HoldTimeBroadcasts (calls r) = []
  /\ VisibilityBroadcasts (calls r)
     = if bIsDisplayingLoadingScreen s then [false] else [].
Proof.
  cbv zeta.
  destruct (bIsDisplayingLoadingScreen s) eqn:Hshown.
  - destruct s as [Widget Displaying Reason Stamp ByGameLogic UserReason].
    cbn in Hshown. subst Displaying.
    unfold HideLoadingScreen, RemoveWidget, ChangePerformanceSettings,
      bind, gets, when.
    destruct Widget, (GameViewportClient E), (ViewportWorldSettings E);
      repeat split.
  - rewrite (HideLoadingScreen_hidden E s Hshown). repeat split.
    exact Hshown.
Qed.

(** *** One evaluation *)

(** [UpdateLoadingScreen] makes the display state equal to the decision,
    keeps what the decision stored, and broadcasts a visibility change only
    when the display state changes. *)
Lemma UpdateLoadingScreen_effect (E : Engine) (s : ULoadingScreenSubsystem) :
  let d := ShouldShowLoadingScreen E s in
  let r := UpdateLoadingScreen E s in
  bIsDisplayingLoadingScreen (object r) = result d
  /\ LoadingScreenStateReason (object r) = LoadingScreenStateReason (object d)
  /\ LoadingScreenLastDismissedTimestamp (object r)
     = LoadingScreenLastDismissedTimestamp (object d)
  /\ bIsDisplayedByGameLogic (object r) = bIsDisplayedByGameLogic s
  /\ UserSpecifiedLoadingScreenReason (object r)
     = UserSpecifiedLoadingScreenReason s
  /\ HoldTimeBroadcasts (calls r) = HoldTimeBroadcasts (calls d)
  /\ VisibilityBroadcasts (calls r)
     = if Bool.eqb (bIsDisplayingLoadingScreen s) (result d)
       then [] else [result d].
Proof.
  cbv zeta.
  pose proof (ShouldShowLoadingScreen_frame E s) as Hframe. cbv zeta in Hframe.
  unfold UpdateLoadingScreen, bind.
  destruct (ShouldShowLoadingScreen E s) as [[bShow s1] l1].
  unfold result, object, calls in Hframe |- *. cbn [fst snd] in Hframe |- *.
  destruct Hframe as (Hshown & _ & Hflag & Huser & Hvis).
  assert (Hstep :
    exists s2 l2,
      (if bShow then ShowLoadingScreen E else HideLoadingScreen E) s1
      = (tt, s2, l2)
      /\ bIsDisplayingLoadingScreen s2 = bShow
      /\ LoadingScreenStateReason s2 = LoadingScreenStateReason s1
      /\ LoadingScreenLastDismissedTimestamp s2
         = LoadingScreenLastDismissedTimestamp s1
      /\ bIsDisplayedByGameLogic s2 = bIsDisplayedByGameLogic s1
      /\ UserSpecifiedLoadingScreenReason s2
         = UserSpecifiedLoadingScreenReason s1
      /\ HoldTimeBroadcasts l2 = []
      /\ VisibilityBroadcasts l2
         = if Bool.eqb (bIsDisplayingLoadingScreen s1) bShow
           then [] else [bShow]).
  { destruct bShow.
    - pose proof (ShowLoadingScreen_effect E s1) as H. cbv zeta in H.
      destruct (ShowLoadingScreen E s1) as [[[] s2] l2].
      exists s2, l2. unfold object, calls in H. cbn [fst snd] in H.
      destruct H as (H1 & H2 & H3 & H4 & H5 & H6 & H7).
      repeat split; try assumption.
      rewrite H7. destruct (bIsDisplayingLoadingScreen s1); reflexivity.
    - pose proof (HideLoadingScreen_effect E s1) as H. cbv zeta in H.
      destruct (HideLoadingScreen E s1) as [[[] s2] l2].
      exists s2, l2. unfold object, calls in H. cbn [fst snd] in H.
      destruct H as (H1 & H2 & H3 & H4 & H5 & H6 & H7).
      repeat split; try assumption.
      rewrite H7. destruct (bIsDisplayingLoadingScreen s1); reflexivity. }
  destruct Hstep as (s2 & l2 & Hrun & H1 & H2 & H3 & H4 & H5 & H6 & H7).
  rewrite Hrun.
  unfold when, gets, call, ret.
  destruct (Bool.eqb (bLogLoadingScreenReason (Settings E)) true);
    cbn [fst snd];
    rewrite !HoldTimeBroadcasts_app, !VisibilityBroadcasts_app, H6, H7, Hvis,
      Hshown;
    cbn; rewrite ?app_nil_r;
    (repeat split; try congruence).
Qed.

(** The calls of an evaluation start with the calls of its decision. *)
Lemma UpdateLoadingScreen_calls (E : Engine) (s : ULoadingScreenSubsystem) :
  exists later,
    calls (UpdateLoadingScreen E s)
    = (calls (ShouldShowLoadingScreen E s) ++ later)%list.
Proof.
  unfold UpdateLoadingScreen, bind.
  destruct (ShouldShowLoadingScreen E s) as [[bShow s1] l1].
  destruct ((if bShow then ShowLoadingScreen E else HideLoadingScreen E) s1)
    as [[[] s2] l2].
  destruct (when _ _ s2) as [[[] s3] l3].
  exists (l2 ++ l3)%list. reflexivity.
Qed.

(** *** Forced display *)

(** C2.  With [bForceDisplayLoadingScreen] set in the settings,
    [ShouldShowLoadingScreen] answers true, whatever the object holds and
    whatever the engine reports otherwise (world context, world, begun-play
    flag, game-logic flag, timestamp, clock). *)
Theorem ShouldShowLoadingScreen_forced_by_settings
  (E : Engine) (s : ULoadingScreenSubsystem) :
  bForceDisplayLoadingScreen (Settings E) = true ->
  result (ShouldShowLoadingScreen E s) = true.
Proof.
  intros Hforce.
  assert (Hblock : result (CheckForDisplayReason E s) = true).
  { rewrite CheckForDisplayReason_result.
    unfold evaluateBlockingReason, BlockingChecks. cbn.
    rewrite Hforce. reflexivity. }
  rewrite (ShouldShowLoadingScreen_blocking E s Hblock). reflexivity.
Qed.

(** *** A blocking reason cancels the hold *)

(** C4.  On every evaluation that finds a blocking reason -- in particular
    when one reappears while a hold is running, however far it has run --
    [ShouldShowLoadingScreen] resets the timestamp to none ([-1.0]) and
    answers true; after the evaluation the screen is displayed and
    [IsWaitingForAdditionalTime] is false. *)
Theorem blocking_reason_cancels_hold
  (E E' : Engine) (s : ULoadingScreenSubsystem) :
  result (CheckForDisplayReason E s) = true ->
  result (ShouldShowLoadingScreen E s) = true
  /\ LoadingScreenLastDismissedTimestamp (object (ShouldShowLoadingScreen E s))
     = (-1)%float
  /\ TimestampIsNone
       (LoadingScreenLastDismissedTimestamp (object (UpdateLoadingScreen E s)))
     = true
  /\ bIsDisplayingLoadingScreen (object (UpdateLoadingScreen E s)) = true
  /\ IsWaitingForAdditionalTime E' (object (UpdateLoadingScreen E s)) = false.
Proof.
  intros Hblock.
  pose proof (UpdateLoadingScreen_effect E s) as Heval. cbv zeta in Heval.
  destruct Heval as (Hshown & _ & Hstamp & _).
  pose proof (ShouldShowLoadingScreen_blocking E s Hblock) as Hdecide.
  rewrite Hdecide in Hshown, Hstamp.
  change (bIsDisplayingLoadingScreen (object (UpdateLoadingScreen E s)) = true)
    in Hshown.
  change (LoadingScreenLastDismissedTimestamp
            (object (UpdateLoadingScreen E s)) = (-1)%float) in Hstamp.
  unfold IsWaitingForAdditionalTime.
  rewrite Hshown, Hstamp, Hdecide.
  repeat split.
  cbn. destruct (HoldLoadingScreenAdditionalSecs (Settings E') <=? 0);
    reflexivity.
Qed.

(** *** The hold time in the editor *)

(** C5.  In the editor with [bShowLoadingScreenAdditionalSecsInEditor] off,
    the hold time used by [ShouldShowLoadingScreen] is zero whatever
    [HoldLoadingScreenAdditionalSecs] is configured, and an evaluation that
    finds no blocking reason answers false: the screen is hidden by that very
    evaluation, without a grace window. *)
Theorem editor_skips_hold_time (E : Engine) (s : ULoadingScreenSubsystem) :
  GIsEditor E = true ->
  bShowLoadingScreenAdditionalSecsInEditor (Settings E) = false ->
  HoldLoadingScreenTime E = 0%float
  /\ (result (CheckForDisplayReason E s) = false ->
      result (ShouldShowLoadingScreen E s) = false
      /\ bIsDisplayingLoadingScreen (object (UpdateLoadingScreen E s)) = false
      /\ VisibilityBroadcasts (calls (UpdateLoadingScreen E s))
         = if bIsDisplayingLoadingScreen s then [false] else []).
Proof.
  intros Heditor Hoff.
  assert (Hzero : HoldLoadingScreenTime E = 0%float).
  { unfold HoldLoadingScreenTime. rewrite Heditor, Hoff. reflexivity. }
  split; [exact Hzero|]. intros Hclear.
  pose proof (UpdateLoadingScreen_effect E s) as Heval. cbv zeta in Heval.
  destruct Heval as (Hshown & _ & _ & _ & _ & _ & Hvis).
  assert (Hdecide : result (ShouldShowLoadingScreen E s) = false).
  { rewrite (ShouldShowLoadingScreen_clear E s Hclear). cbv zeta.
    unfold InGraceWindow. rewrite Hzero. reflexivity. }
  rewrite Hdecide in Hshown, Hvis.
  repeat split; try assumption.
  rewrite Hvis. destruct (bIsDisplayingLoadingScreen s); reflexivity.
Qed.

(** *** A hold of zero length *)

(** C10.  When the hold time in force is zero (configured as zero, or zeroed
    in the editor), the first evaluation without a blocking reason still
    stores the timestamp and still broadcasts the hold-time delegate, with
    the value 0.0, and it answers false: the broadcast comes first among the
    calls of the evaluation and the screen, if it was up, is hidden right
    after it. *)
Theorem zero_hold_time_still_broadcast
  (E : Engine) (s : ULoadingScreenSubsystem) :
  HoldLoadingScreenTime E = 0%float ->
  result (CheckForDisplayReason E s) = false ->
  TimestampIsNone (LoadingScreenLastDismissedTimestamp s) = true ->
  result (ShouldShowLoadingScreen E s) = false
  /\ LoadingScreenLastDismissedTimestamp (object (ShouldShowLoadingScreen E s))
     = Seconds E
  /\ calls (ShouldShowLoadingScreen E s) = [OnHoldTimeTriggeredDelegate 0]
  /\ (exists later,
        calls (UpdateLoadingScreen E s)
        = OnHoldTimeTriggeredDelegate 0 :: later
        /\ HoldTimeBroadcasts later = []
        /\ VisibilityBroadcasts later
           = if bIsDisplayingLoadingScreen s then [false] else [])
  /\ bIsDisplayingLoadingScreen (object (UpdateLoadingScreen E s)) = false.
Proof.
  intros Hzero Hclear Hnone.
  pose proof (UpdateLoadingScreen_effect E s) as Heval. cbv zeta in Heval.
  destruct Heval as (Hshown & _ & _ & _ & _ & Hhold & Hvis).
  destruct (UpdateLoadingScreen_calls E s) as (later & Hcalls).
  assert (Hdecide :
    ShouldShowLoadingScreen E s
    = (false,
       with_LoadingScreenLastDismissedTimestamp (Seconds E)
         (with_LoadingScreenStateReason
            (snd (evaluateBlockingReason E s)) s),
       [OnHoldTimeTriggeredDelegate 0])).
  { rewrite (ShouldShowLoadingScreen_clear E s Hclear). cbv zeta.
    rewrite Hnone. unfold InGraceWindow. rewrite Hzero. reflexivity. }
  rewrite Hdecide in *.
  unfold result, calls in Hshown, Hhold, Hvis, Hcalls.
  cbn [fst snd app] in Hshown, Hhold, Hvis, Hcalls.
  repeat split; try assumption.
  exists later. rewrite Hcalls in Hhold, Hvis. cbn in Hhold, Hvis.
  repeat split.
  - exact Hcalls.
  - injection Hhold as Hhold. exact Hhold.
  - rewrite Hvis. destruct (bIsDisplayingLoadingScreen s); reflexivity.
Qed.

(** *** The command of game logic *)

(** C9.  [ForceDisplayStateByGameLogic] stores its two arguments in
    [bIsDisplayedByGameLogic] and [UserSpecifiedLoadingScreenReason] and
    does nothing else: the display state, the stored reason, the timestamp
    and the widget are as before, no delegate is broadcast and no engine
    object is called, so no evaluation takes place. *)
Theorem ForceDisplayStateByGameLogic_frame
  (Visibility : bool) (Reason : FString) (s : ULoadingScreenSubsystem) :
  let r := ForceDisplayStateByGameLogic Visibility Reason s in
  bIsDisplayedByGameLogic (object r) = Visibility
  /\ UserSpecifiedLoadingScreenReason (object r) = Reason
  /\ bIsDisplayingLoadingScreen (object r) = bIsDisplayingLoadingScreen s
  /\ LoadingScreenStateReason (object r) = LoadingScreenStateReason s
  /\ LoadingScreenLastDismissedTimestamp (object r)
     = LoadingScreenLastDismissedTimestamp s
  /\ LoadingScreenWidget (object r) = LoadingScreenWidget s
  /\ calls r = [].
Proof. repeat split. Qed.

(** *** Hold episodes *)

(** Whether a blocking reason is found depends on the object only through
    the game-logic flag. *)
Lemma CheckForDisplayReason_result_flag
  (E : Engine) (s1 s2 : ULoadingScreenSubsystem) :
  bIsDisplayedByGameLogic s1 = bIsDisplayedByGameLogic s2 ->
  result (CheckForDisplayReason E s1) = result (CheckForDisplayReason E s2).
Proof.
  intros Hflag. rewrite !CheckForDisplayReason_result.
  unfold evaluateBlockingReason, BlockingChecks. cbn. rewrite Hflag.
  destruct (bForceDisplayLoadingScreen (Settings E)),
    (negb (hasWorldContext E)), (negb (worldExists E)),
    (negb (worldHasBegunPlay E)), (bIsDisplayedByGameLogic s2); reflexivity.
Qed.

(** The evaluation on which the blocking reasons clear: the timestamp is
    taken and the hold time is broadcast. *)
Lemma UpdateLoadingScreen_first_clear
  (E : Engine) (s : ULoadingScreenSubsystem) :
  result (CheckForDisplayReason E s) = false ->
  TimestampIsNone (LoadingScreenLastDismissedTimestamp s) = true ->
  HoldTimeBroadcasts (calls (UpdateLoadingScreen E s))
  = [HoldLoadingScreenTime E]
  /\ LoadingScreenLastDismissedTimestamp (object (UpdateLoadingScreen E s))
     = Seconds E.
Proof.
  intros Hclear Hnone.
  pose proof (UpdateLoadingScreen_effect E s) as Heval. cbv zeta in Heval.
  destruct Heval as (_ & _ & Hstamp & _ & _ & Hhold & _).
  rewrite Hhold, Hstamp, (ShouldShowLoadingScreen_clear E s Hclear).
  cbv zeta. rewrite Hnone.
  destruct (InGraceWindow E (Seconds E)); split; reflexivity.
Qed.

(** An evaluation without blocking reason that finds a timestamp keeps it
    and broadcasts no hold time. *)
Lemma UpdateLoadingScreen_later_clear
  (E : Engine) (s : ULoadingScreenSubsystem) :
  result (CheckForDisplayReason E s) = false ->
  TimestampIsNone (LoadingScreenLastDismissedTimestamp s) = false ->
  HoldTimeBroadcasts (calls (UpdateLoadingScreen E s)) = []
  /\ LoadingScreenLastDismissedTimestamp (object (UpdateLoadingScreen E s))
     = LoadingScreenLastDismissedTimestamp s.
Proof.
  intros Hclear Hset.
  pose proof (UpdateLoadingScreen_effect E s) as Heval. cbv zeta in Heval.
  destruct Heval as (_ & _ & Hstamp & _ & _ & Hhold & _).
  rewrite Hhold, Hstamp, (ShouldShowLoadingScreen_clear E s Hclear).
  cbv zeta. rewrite Hset.
  destruct (InGraceWindow E (LoadingScreenLastDismissedTimestamp s));
    split; reflexivity.
Qed.

(** The rest of an episode: evaluations without blocking reason, started
    with a timestamp, keep the timestamp and broadcast no hold time. *)
Lemma evaluate_all_later_clear (flag : bool) (Es : list Engine) :
  forall s : ULoadingScreenSubsystem,
    bIsDisplayedByGameLogic s = flag ->
    TimestampIsNone (LoadingScreenLastDismissedTimestamp s) = false ->
    Forall
      (fun E =>
         forall s', bIsDisplayedByGameLogic s' = flag ->
                    result (CheckForDisplayReason E s') = false) Es ->
    HoldTimeBroadcasts (calls (evaluate_all Es s)) = []
    /\ LoadingScreenLastDismissedTimestamp (object (evaluate_all Es s))
       = LoadingScreenLastDismissedTimestamp s.
Proof.
  induction Es as [|E rest IH]; intros s Hflag Hset Hall.
  - split; reflexivity.
  - pose proof (Forall_inv Hall) as Hclear. cbv beta in Hclear.
    pose proof (Forall_inv_tail Hall) as Hrest.
    destruct (UpdateLoadingScreen_later_clear E s (Hclear s Hflag) Hset)
      as (Hhold & Hstamp).
    pose proof (UpdateLoadingScreen_effect E s) as Heval. cbv zeta in Heval.
    destruct Heval as (_ & _ & _ & Hkeep & _).
    cbn [evaluate_all]. unfold bind.
    destruct (UpdateLoadingScreen E s) as [[[] s1] l1].
    unfold object, calls in Hhold, Hstamp, Hkeep.
    cbn [fst snd] in Hhold, Hstamp, Hkeep.
    assert (Hset1 :
      TimestampIsNone (LoadingScreenLastDismissedTimestamp s1) = false)
      by (rewrite Hstamp; exact Hset).
    destruct (IH s1 (eq_trans Hkeep Hflag) Hset1 Hrest) as (Hhold' & Hstamp').
    destruct (evaluate_all rest s1) as [[[] s2] l2].
    unfold object, calls in Hhold', Hstamp' |- *.
    cbn [fst snd] in Hhold', Hstamp' |- *.
    rewrite HoldTimeBroadcasts_app, Hhold, Hhold', Hstamp', Hstamp.
    split; reflexivity.
Qed.

(** The hold time in force in the code is the specification's effective
    hold duration. *)
Lemma HoldLoadingScreenTime_effective (E : Engine) :
  HoldLoadingScreenTime E = effectiveHoldDuration E.
Proof.
  unfold HoldLoadingScreenTime, effectiveHoldDuration.
  destruct (GIsEditor E),
    (bShowLoadingScreenAdditionalSecsInEditor (Settings E)); reflexivity.
Qed.

(** C3.  A hold episode is a run of consecutive evaluations [E :: Es] that
    find no blocking reason, the first of them finding no timestamp.  Its
    first evaluation stores the clock reading as the timestamp and
    broadcasts the hold-time delegate once, with the effective hold
    duration: the configured hold time, or 0 in the editor with the wait
    switched off.  The later evaluations of the episode broadcast none and
    keep the timestamp, however many they are.  The clock reading of the
    first evaluation is not negative, as every reading of the engine's clock
    is.  Whether an evaluation finds a blocking reason depends on the object
    only through the game-logic flag, which no evaluation writes, so the
    condition is stated at the object the episode starts from. *)
Theorem hold_time_broadcast_once_per_episode
  (E : Engine) (Es : list Engine) (s : ULoadingScreenSubsystem) :
  let first := UpdateLoadingScreen E s in
  let later := evaluate_all Es (object first) in
  TimestampIsNone (LoadingScreenLastDismissedTimestamp s) = true ->
  (Seconds E <? 0) = false ->
  Forall (fun E' => result (CheckForDisplayReason E' s) = false) (E :: Es) ->
  HoldTimeBroadcasts (calls first) = [effectiveHoldDuration E]
  /\ LoadingScreenLastDismissedTimestamp (object first) = Seconds E
  /\ HoldTimeBroadcasts (calls later) = []
  /\ LoadingScreenLastDismissedTimestamp (object later) = Seconds E
  /\ HoldTimeBroadcasts (calls (evaluate_all (E :: Es) s))
     = [effectiveHoldDuration E].
Proof.
  intros first later Hnone Hclock Hall.
  rewrite <- (HoldLoadingScreenTime_effective E).
  pose proof (Forall_inv Hall) as Hclear. cbv beta in Hclear.
  pose proof (Forall_inv_tail Hall) as Hrest.
  destruct (UpdateLoadingScreen_first_clear E s Hclear Hnone)
    as (Hhold & Hstamp).
  pose proof (UpdateLoadingScreen_effect E s) as Heval. cbv zeta in Heval.
  destruct Heval as (_ & _ & _ & Hkeep & _).
  assert (Hset :
    TimestampIsNone (LoadingScreenLastDismissedTimestamp (object first))
    = false) by (unfold first; rewrite Hstamp; exact Hclock).
  assert (Hrest' :
    Forall
      (fun E' =>
         forall s', bIsDisplayedByGameLogic s' = bIsDisplayedByGameLogic s ->
                    result (CheckForDisplayReason E' s') = false) Es).
  { apply Forall_forall. intros E' Hin s' Hflag.
    rewrite (CheckForDisplayReason_result_flag E' s' s Hflag).
    rewrite Forall_forall in Hrest. exact (Hrest E' Hin). }
  destruct (evaluate_all_later_clear (bIsDisplayedByGameLogic s) Es
              (object first) Hkeep Hset Hrest') as (Hhold' & Hstamp').
  fold later in Hhold', Hstamp'.
  repeat split; try assumption.
  - rewrite Hstamp'. exact Hstamp.
  - cbn [evaluate_all]. unfold bind.
    unfold later, first in Hhold'. unfold calls, object in Hhold, Hhold'.
    destruct (UpdateLoadingScreen E s) as [[[] s1] l1].
    cbn [fst snd] in Hhold, Hhold'.
    destruct (evaluate_all Es s1) as [[[] s2] l2].
    cbn [fst snd] in Hhold' |- *. unfold calls. cbn [snd].
    rewrite HoldTimeBroadcasts_app, Hhold, Hhold'. reflexivity.
Qed.

(** *** Evaluating twice *)

Lemma evaluateBlockingReason_members
  (E : Engine) (s1 s2 : ULoadingScreenSubsystem) :
  bIsDisplayedByGameLogic s1 = bIsDisplayedByGameLogic s2 ->
  UserSpecifiedLoadingScreenReason s1 = UserSpecifiedLoadingScreenReason s2 ->
  evaluateBlockingReason E s1 = evaluateBlockingReason E s2.
Proof.
  intros Hflag Huser. unfold evaluateBlockingReason, BlockingChecks.
  rewrite Hflag, Huser. reflexivity.
Qed.

(** Deciding again under the same engine answers, on an object that holds
    what the first decision stored, gives the same answer and stores
    nothing new. *)
Lemma ShouldShowLoadingScreen_again
  (E : Engine) (s s1 : ULoadingScreenSubsystem) :
  let d := ShouldShowLoadingScreen E s in
  LoadingScreenStateReason s1 = LoadingScreenStateReason (object d) ->
  LoadingScreenLastDismissedTimestamp s1
  = LoadingScreenLastDismissedTimestamp (object d) ->
  bIsDisplayedByGameLogic s1 = bIsDisplayedByGameLogic s ->
  UserSpecifiedLoadingScreenReason s1 = UserSpecifiedLoadingScreenReason s ->
  result (ShouldShowLoadingScreen E s1) = result d
  /\ object (ShouldShowLoadingScreen E s1) = s1.
Proof.
  cbv zeta. intros Hreason Hstamp Hflag Huser.
  pose proof (CheckForDisplayReason_result_flag E s1 s Hflag) as Hsame.
  pose proof (evaluateBlockingReason_members E s1 s Hflag Huser) as Hwhy.
  destruct (result (CheckForDisplayReason E s)) eqn:Hcheck.
  - rewrite (ShouldShowLoadingScreen_blocking E s Hcheck) in Hreason, Hstamp |- *.
    rewrite (ShouldShowLoadingScreen_blocking E s1 Hsame), Hwhy.
    destruct s1 as [Widget Displaying Reason Stamp ByGameLogic UserReason].
    cbn in Hreason, Hstamp |- *. subst Reason Stamp. split; reflexivity.
  - rewrite (ShouldShowLoadingScreen_clear E s Hcheck) in Hreason, Hstamp |- *.
    rewrite (ShouldShowLoadingScreen_clear E s1 Hsame), Hwhy.
    cbv zeta in Hreason, Hstamp |- *.
    destruct s1 as [Widget Displaying Reason Stamp ByGameLogic UserReason].
    unfold TimestampIsNone in *.
    destruct (LoadingScreenLastDismissedTimestamp s <? 0) eqn:Hnone.
    + destruct (InGraceWindow E (Seconds E)) eqn:Hwindow;
        cbn in Hreason, Hstamp; subst Reason Stamp; cbn;
        destruct (Seconds E <? 0); rewrite Hwindow;
        split; reflexivity.
    + destruct (InGraceWindow E (LoadingScreenLastDismissedTimestamp s))
        eqn:Hwindow;
        cbn in Hreason, Hstamp; subst Reason Stamp; cbn;
        rewrite Hnone, Hwindow; split; reflexivity.
Qed.

(** C8.  Evaluating twice under the same engine answers, with nothing
    happening in between, broadcasts no visibility change the second time and
    leaves the object as the first evaluation left it.  Showing a screen that
    is already displayed, and hiding one that is already hidden, returns at
    once: nothing is broadcast and the object is unchanged. *)
Theorem UpdateLoadingScreen_twice (E : Engine) (s : ULoadingScreenSubsystem) :
  let once := UpdateLoadingScreen E s in
  let twice := UpdateLoadingScreen E (object once) in
  VisibilityBroadcasts (calls twice) = []
  /\ object twice = object once
  /\ (bIsDisplayingLoadingScreen s = true ->
      ShowLoadingScreen E s = (tt, s, []))
  /\ (bIsDisplayingLoadingScreen s = false ->
      HideLoadingScreen E s = (tt, s, [])).
Proof.
  intros once twice.
  pose proof (UpdateLoadingScreen_effect E s) as Hfirst. cbv zeta in Hfirst.
  fold once in Hfirst.
  destruct Hfirst as (Hshown & Hreason & Hstamp & Hflag & Huser & _).
  destruct (ShouldShowLoadingScreen_again E s (object once)
              Hreason Hstamp Hflag Huser) as (Hresult & Hobject).
  pose proof (UpdateLoadingScreen_effect E (object once)) as Hsecond.
  cbv zeta in Hsecond. fold twice in Hsecond.
  destruct Hsecond as (_ & _ & _ & _ & _ & _ & Hvis).
  rewrite Hresult, Hshown, Bool.eqb_reflx in Hvis.
  split; [exact Hvis|].
  split; [|split;
           [exact (ShowLoadingScreen_displayed E s)
           |exact (HideLoadingScreen_hidden E s)]].
  assert (Hagain :
    exists l1,
      ShouldShowLoadingScreen E (object once)
      = (bIsDisplayingLoadingScreen (object once), object once, l1)).
  { destruct (ShouldShowLoadingScreen E (object once)) as [[bShow s1] l1].
    exists l1. unfold result, object in *. cbn [fst snd] in *.
    rewrite Hresult, Hobject, Hshown. reflexivity. }
  destruct Hagain as (l1 & Hagain).
  unfold twice, UpdateLoadingScreen at 1, bind. rewrite Hagain.
  destruct (bIsDisplayingLoadingScreen (object once)) eqn:Hnow.
  - rewrite (ShowLoadingScreen_displayed E (object once) Hnow).
    unfold when, gets, call, ret.
    destruct (Bool.eqb (bLogLoadingScreenReason (Settings E)) true);
      reflexivity.
  - rewrite (HideLoadingScreen_hidden E (object once) Hnow).
    unfold when, gets, call, ret.
    destruct (Bool.eqb (bLogLoadingScreenReason (Settings E)) true);
      reflexivity.
Qed.

(** *** The timestamp and the display state *)

(** After an evaluation, a timestamp means that the display state is the
    outcome of the grace-window test of that evaluation. *)
Lemma UpdateLoadingScreen_window (E : Engine) (s : ULoadingScreenSubsystem) :
  let r := UpdateLoadingScreen E s in
  TimestampIsSet (LoadingScreenLastDismissedTimestamp (object r)) = true ->
  bIsDisplayingLoadingScreen (object r)
  = InGraceWindow E (LoadingScreenLastDismissedTimestamp (object r)).
Proof.
  cbv zeta.
  pose proof (UpdateLoadingScreen_effect E s) as Heval. cbv zeta in Heval.
  destruct Heval as (Hshown & _ & Hstamp & _).
  rewrite Hshown, Hstamp.
  destruct (result (CheckForDisplayReason E s)) eqn:Hcheck.
  - rewrite (ShouldShowLoadingScreen_blocking E s Hcheck).
    intros Hset. discriminate Hset.
  - rewrite (ShouldShowLoadingScreen_clear E s Hcheck). cbv zeta.
    intros _.
    destruct (TimestampIsNone (LoadingScreenLastDismissedTimestamp s));
      match goal with
      | |- context [if ?c then _ else _] => destruct c eqn:Hwindow
      end; cbn; rewrite Hwindow; reflexivity.
Qed.

(** A call that evaluates is one [UpdateLoadingScreen]. *)
Lemma perform_evaluation (c : Call) (E : Engine) :
  evaluation_of c = Some E -> perform c = UpdateLoadingScreen E.
Proof.
  destruct c as [E0 ?|E0 ?|E0|? ?]; cbn; unfold HandlePreLoadMap, when;
    try destruct (IsInitialized E0); intros Heq;
    try discriminate Heq; injection Heq as <-; reflexivity.
Qed.

(** A call that does not evaluate leaves timestamp and display state. *)
Lemma perform_no_evaluation (c : Call) (s : ULoadingScreenSubsystem) :
  evaluation_of c = None ->
  LoadingScreenLastDismissedTimestamp (object (perform c s))
  = LoadingScreenLastDismissedTimestamp s
  /\ bIsDisplayingLoadingScreen (object (perform c s))
     = bIsDisplayingLoadingScreen s.
Proof.
  destruct c as [E0 ?|E0 ?|E0|? ?]; cbn; unfold HandlePreLoadMap, when;
    try destruct (IsInitialized E0); intros Heq;
    try discriminate Heq; split; reflexivity.
Qed.

(** The invariant along any sequence of calls, from any starting object. *)
Lemma perform_all_window (cs : list Call) :
  forall s0 : ULoadingScreenSubsystem,
    let s := object (perform_all cs s0) in
    TimestampIsSet (LoadingScreenLastDismissedTimestamp s) = true ->
    match last_evaluation cs with
    | Some E =>
        bIsDisplayingLoadingScreen s
        = InGraceWindow E (LoadingScreenLastDismissedTimestamp s)
    | None =>
        LoadingScreenLastDismissedTimestamp s
        = LoadingScreenLastDismissedTimestamp s0
        /\ bIsDisplayingLoadingScreen s = bIsDisplayingLoadingScreen s0
    end.
Proof.
  induction cs as [|c rest IH]; intros s0; cbv zeta.
  - intros _. split; reflexivity.
  - cbn [perform_all last_evaluation]. unfold bind.
    pose proof (perform_no_evaluation c s0) as Hidle.
    pose proof (perform_evaluation c) as Hrun.
    pose proof (UpdateLoadingScreen_window) as Hwindow.
    destruct (perform c s0) as [[[] s1] l1] eqn:Hstep.
    specialize (IH s1). cbv zeta in IH.
    destruct (perform_all rest s1) as [[[] s2] l2].
    unfold object in *. cbn [fst snd] in *.
    intros Hset. specialize (IH Hset).
    destruct (last_evaluation rest) as [E|]; [exact IH|].
    destruct IH as (Hstamp & Hshown).
    destruct (evaluation_of c) as [E|].
    + specialize (Hwindow E s0). cbv zeta in Hwindow.
      rewrite <- (Hrun E eq_refl), Hstep in Hwindow. cbn [fst snd] in Hwindow.
      rewrite Hstamp, Hshown. apply Hwindow. rewrite <- Hstamp. exact Hset.
    + destruct (Hidle eq_refl) as (Hstamp0 & Hshown0).
      split; congruence.
Qed.

(** C6, as amended.  In every object reachable from the constructed one by
    ticks, lifecycle hooks and commands of game logic, a timestamp (not
    none) implies that an evaluation has taken place and that the screen is
    displayed exactly when the latest evaluation was inside the grace
    window: the effective hold duration at that evaluation was positive and
    the time from the timestamp to its clock reading was below it. *)
Theorem timestamp_set_displayed_iff_in_window (cs : list Call) :
  let s := object (perform_all cs NewSubsystem) in
  TimestampIsSet (LoadingScreenLastDismissedTimestamp s) = true ->
  exists E,
    last_evaluation cs = Some E
    /\ bIsDisplayingLoadingScreen s
       = InGraceWindow E (LoadingScreenLastDismissedTimestamp s)
    /\ (bIsDisplayingLoadingScreen s = true <->
        (0 <? effectiveHoldDuration E) = true
        /\ (Seconds E - LoadingScreenLastDismissedTimestamp s
            <? effectiveHoldDuration E) = true).
Proof.
  cbv zeta. intros Hset.
  pose proof (perform_all_window cs NewSubsystem) as Hinv. cbv zeta in Hinv.
  specialize (Hinv Hset).
  destruct (last_evaluation cs) as [E|].
  - exists E. split; [reflexivity|]. split; [exact Hinv|].
    rewrite Hinv. unfold InGraceWindow.
    rewrite (HoldLoadingScreenTime_effective E).
    apply Bool.andb_true_iff.
  - destruct Hinv as (Hstamp & _). rewrite Hstamp in Hset.
    discriminate Hset.
Qed.

(** *** Waiting for the additional time *)

(** [IsWaitingForAdditionalTime] as one test: displayed, configured hold
    time not at or below zero, timestamp above zero. *)
Lemma IsWaitingForAdditionalTime_eq (E : Engine) (s : ULoadingScreenSubsystem) :
  IsWaitingForAdditionalTime E s
  = bIsDisplayingLoadingScreen s
    && negb (HoldLoadingScreenAdditionalSecs (Settings E) <=? 0)
    && (0 <? LoadingScreenLastDismissedTimestamp s).
Proof.
  unfold IsWaitingForAdditionalTime.
  destruct (bIsDisplayingLoadingScreen s),
    (HoldLoadingScreenAdditionalSecs (Settings E) <=? 0),
    (0 <? LoadingScreenLastDismissedTimestamp s); reflexivity.
Qed.

(** Where the two readings of the timestamp agree -- the one of
    [ShouldShowLoadingScreen], none when [< 0.0], and the one of
    [IsWaitingForAdditionalTime], set when [> 0.0] -- and the configured hold
    time is ordered against zero, [IsWaitingForAdditionalTime] is: displayed,
    timestamp not none, configured hold time positive. *)
Lemma IsWaitingForAdditionalTime_where_tests_agree
  (E : Engine) (s : ULoadingScreenSubsystem) :
  (0 <? LoadingScreenLastDismissedTimestamp s)
  = TimestampIsSet (LoadingScreenLastDismissedTimestamp s) ->
  (HoldLoadingScreenAdditionalSecs (Settings E) <=? 0)
  = negb (0 <? HoldLoadingScreenAdditionalSecs (Settings E)) ->
  IsWaitingForAdditionalTime E s
  = bIsDisplayingLoadingScreen s
    && TimestampIsSet (LoadingScreenLastDismissedTimestamp s)
    && (0 <? HoldLoadingScreenAdditionalSecs (Settings E)).
Proof.
  intros Hstamp Hhold.
  rewrite IsWaitingForAdditionalTime_eq, Hstamp, Hhold, Bool.negb_involutive.
  destruct (bIsDisplayingLoadingScreen s),
    (TimestampIsSet (LoadingScreenLastDismissedTimestamp s)),
    (0 <? HoldLoadingScreenAdditionalSecs (Settings E)); reflexivity.
Qed.

(** ** Further properties of the subsystem *)

(** *** Comparisons with zero *)

Lemma positive_not_at_or_below_zero (h : float) :
  (0 <? h) = true -> (h <=? 0) = false.
Proof.
  rewrite ltb_spec, leb_spec.
  change (Prim2SF 0) with (S754_zero false).
  destruct (Prim2SF h) as [sign|sign| |sign m e]; cbn;
    try discriminate; try reflexivity;
    destruct sign; cbn; try discriminate; reflexivity.
Qed.

Lemma positive_not_negative (t : float) :
  (0 <? t) = true -> (t <? 0) = false.
Proof.
  rewrite !ltb_spec.
  change (Prim2SF 0) with (S754_zero false).
  destruct (Prim2SF t) as [sign|sign| |sign m e]; cbn;
    try discriminate; try reflexivity;
    destruct sign; cbn; try discriminate; reflexivity.
Qed.

(** For a number, being at or below zero is not being above it. *)
Lemma number_at_or_below_zero (h : float) :
  is_nan h = false -> (h <=? 0) = negb (0 <? h).
Proof.
  unfold is_nan. rewrite eqb_spec, ltb_spec, leb_spec.
  change (Prim2SF 0) with (S754_zero false).
  destruct (Prim2SF h) as [sign|sign| |sign m e]; cbn;
    try discriminate; try reflexivity;
    destruct sign; cbn; try discriminate; reflexivity.
Qed.

(** *** The calls of showing, hiding and evaluating *)

Lemma ShowLoadingScreen_hidden (E : Engine) (s : ULoadingScreenSubsystem) :
  bIsDisplayingLoadingScreen s = false ->
  ShowLoadingScreen E s =
    (tt,
     with_LoadingScreenWidget (Some (ShownWidget E))
       (with_bIsDisplayingLoadingScreen true s),
     ShowCalls E).
Proof.
  intros Hhidden.
  unfold ShowLoadingScreen, ChangePerformanceSettings, ShowCalls, ShownWidget,
    bind, gets, when.
  rewrite Hhidden.
  destruct (CreateWidgetInstance E), (ViewportWorldSettings E),
    (GIsEditor E); reflexivity.
Qed.

Lemma HideLoadingScreen_displayed (E : Engine) (s : ULoadingScreenSubsystem) :
  bIsDisplayingLoadingScreen s = true ->
  HideLoadingScreen E s =
    (tt,
     with_bIsDisplayingLoadingScreen false (with_LoadingScreenWidget None s),
     HideCalls E (LoadingScreenWidget s)).
Proof.
  intros Hshown.
  destruct s as [Widget Displaying Reason Stamp ByGameLogic UserReason].
  cbn in Hshown. subst Displaying.
  unfold HideLoadingScreen, RemoveWidget, ChangePerformanceSettings,
    HideCalls, bind, gets, when.
  destruct Widget, (GameViewportClient E), (ViewportWorldSettings E);
    reflexivity.
Qed.

(** An evaluation is its decision, then showing or hiding, then the log
    line. *)
Lemma UpdateLoadingScreen_unfold (E : Engine) (s : ULoadingScreenSubsystem) :
  let d := ShouldShowLoadingScreen E s in
  let a :=
    (if result d then ShowLoadingScreen E else HideLoadingScreen E)
      (object d) in
  UpdateLoadingScreen E s =
    (tt, object a,
     (calls d ++ calls a
      ++ (if bLogLoadingScreenReason (Settings E)
          then [LogDisplayStatus (bIsDisplayingLoadingScreen (object a))
                  (LoadingScreenStateReason (object a))]
          else []))%list).
Proof.
  cbv zeta. unfold UpdateLoadingScreen, bind.
  destruct (ShouldShowLoadingScreen E s) as [[bShow s1] l1].
  unfold result, object, calls. cbn [fst snd].
  destruct ((if bShow then ShowLoadingScreen E else HideLoadingScreen E) s1)
    as [[[] s2] l2].
  cbn [fst snd]. unfold when, gets, call, ret.
  destruct (bLogLoadingScreenReason (Settings E)); cbn;
    rewrite ?app_nil_r; reflexivity.
Qed.

(** The calls of the decision. *)
Lemma ShouldShowLoadingScreen_calls (E : Engine) (s : ULoadingScreenSubsystem) :
  calls (ShouldShowLoadingScreen E s)
  = ((if negb (result (CheckForDisplayReason E s))
         && TimestampIsNone (LoadingScreenLastDismissedTimestamp s)
      then [OnHoldTimeTriggeredDelegate (HoldLoadingScreenTime E)] else [])
     ++ (if negb (result (CheckForDisplayReason E s))
            && result (ShouldShowLoadingScreen E s)
         then [bDisableWorldRendering false] else []))%list.
Proof.
  destruct (result (CheckForDisplayReason E s)) eqn:Hcheck.
  - rewrite (ShouldShowLoadingScreen_blocking E s Hcheck). reflexivity.
  - rewrite (ShouldShowLoadingScreen_clear E s Hcheck). cbv zeta.
    destruct (TimestampIsNone (LoadingScreenLastDismissedTimestamp s)),
      (InGraceWindow E _); reflexivity.
Qed.

(** The calls of an evaluation and the widget it leaves, by the decision and
    the display state it starts from. *)
Lemma UpdateLoadingScreen_cases (E : Engine) (s : ULoadingScreenSubsystem) :
  let d := ShouldShowLoadingScreen E s in
  let r := UpdateLoadingScreen E s in
  calls r =
    (calls d
     ++ (if result d
         then (if bIsDisplayingLoadingScreen s then [] else ShowCalls E)
         else (if bIsDisplayingLoadingScreen s
               then HideCalls E (LoadingScreenWidget s) else []))
     ++ (if bLogLoadingScreenReason (Settings E)
         then [LogDisplayStatus (result d)
                 (LoadingScreenStateReason (object d))]
         else []))%list
  /\ LoadingScreenWidget (object r) =
       (if result d
        then (if bIsDisplayingLoadingScreen s then LoadingScreenWidget s
              else Some (ShownWidget E))
        else (if bIsDisplayingLoadingScreen s then None
              else LoadingScreenWidget s)).
Proof.
  cbv zeta.
  pose proof (ShouldShowLoadingScreen_frame E s) as Hframe. cbv zeta in Hframe.
  destruct Hframe as (Hshown & Hwidget & _).
  rewrite (UpdateLoadingScreen_unfold E s). cbv zeta.
  destruct (ShouldShowLoadingScreen E s) as [[bShow s1] l1].
  unfold result, object, calls in *. cbn [fst snd] in *.
  destruct bShow, (bIsDisplayingLoadingScreen s) eqn:Hnow.
  - rewrite (ShowLoadingScreen_displayed E _ Hshown). cbn [fst snd].
    rewrite Hshown, Hwidget. split; reflexivity.
  - rewrite (ShowLoadingScreen_hidden E _ Hshown). cbn [fst snd].
    split; reflexivity.
  - rewrite (HideLoadingScreen_displayed E _ Hshown). cbn [fst snd].
    rewrite Hwidget. split; reflexivity.
  - rewrite (HideLoadingScreen_hidden E _ Hshown). cbn [fst snd].
    rewrite Hshown, Hwidget. split; reflexivity.
Qed.

(** *** Readings of the calls of one evaluation *)

Lemma WorldRenderingWrites_app (l1 l2 : list Event) :
  WorldRenderingWrites (l1 ++ l2)
  = (WorldRenderingWrites l1 ++ WorldRenderingWrites l2)%list.
Proof.
  induction l1 as [|e l1 IH]; [reflexivity|].
  destruct e; cbn; rewrite IH; reflexivity.
Qed.

Lemma LogEntries_app (l1 l2 : list Event) :
  LogEntries (l1 ++ l2) = (LogEntries l1 ++ LogEntries l2)%list.
Proof.
  induction l1 as [|e l1 IH]; [reflexivity|].
  destruct e; cbn; rewrite IH; reflexivity.
Qed.

Lemma SlateTicks_app (l1 l2 : list Event) :
  SlateTicks (l1 ++ l2) = (SlateTicks l1 + SlateTicks l2)%nat.
Proof.
  induction l1 as [|e l1 IH]; [reflexivity|].
  destruct e; cbn; rewrite IH; reflexivity.
Qed.

Lemma ViewportAttached_app (Attached : option SWidget) (l1 l2 : list Event) :
  ViewportAttached Attached (l1 ++ l2)
  = match ViewportAttached Attached l1 with
    | Some Then => ViewportAttached Then l2
    | None => None
    end.
Proof.
  revert Attached. induction l1 as [|e l1 IH]; intros Attached;
    [reflexivity|].
  destruct e; cbn; try apply IH.
  - destruct Attached; [reflexivity | apply IH].
  - destruct Attached as [V|]; [|reflexivity].
    destruct (SWidget_eqb V Widget); [apply IH | reflexivity].
Qed.

Lemma SWidget_eqb_refl (W : SWidget) : SWidget_eqb W W = true.
Proof. destruct W; cbn; [apply String.eqb_refl | reflexivity]. Qed.

(** X6.  World rendering after an evaluation.  [bDisableWorldRendering] is
    written last with the new display state when the evaluation shows or
    hides the screen; when it keeps a displayed screen up for the hold it is
    written false, so that the world renders under the screen; otherwise it
    is not written.  An evaluation that shows the screen for the hold
    without a blocking reason therefore leaves world rendering disabled until
    the next evaluation. *)
Theorem UpdateLoadingScreen_world_rendering
  (E : Engine) (s : ULoadingScreenSubsystem) :
  let decision := result (ShouldShowLoadingScreen E s) in
  let blocking := result (CheckForDisplayReason E s) in
  LastWorldRenderingWrite (calls (UpdateLoadingScreen E s))
  = if Bool.eqb (bIsDisplayingLoadingScreen s) decision
    then (if decision && negb blocking then Some false else None)
    else Some decision.
Proof.
  cbv zeta.
  destruct (UpdateLoadingScreen_cases E s) as (Hcalls & _).
  cbv zeta in Hcalls. rewrite Hcalls, (ShouldShowLoadingScreen_calls E s).
  unfold LastWorldRenderingWrite, ShowCalls, HideCalls.
  rewrite !WorldRenderingWrites_app.
  destruct (result (CheckForDisplayReason E s)) eqn:Hcheck.
  - rewrite (ShouldShowLoadingScreen_blocking E s Hcheck).
    unfold result. cbn [fst snd negb andb].
    destruct (bIsDisplayingLoadingScreen s),
      (CreateWidgetInstance E), (ViewportWorldSettings E), (GIsEditor E),
      (bLogLoadingScreenReason (Settings E)); reflexivity.
  - destruct (result (ShouldShowLoadingScreen E s)),
      (TimestampIsNone (LoadingScreenLastDismissedTimestamp s)),
      (bIsDisplayingLoadingScreen s), (LoadingScreenWidget s),
      (CreateWidgetInstance E), (ViewportWorldSettings E), (GIsEditor E),
      (GameViewportClient E), (bLogLoadingScreenReason (Settings E));
      reflexivity.
Qed.

(** X7.  The log line of an evaluation.  With [bLogLoadingScreenReason] every
    evaluation writes one status line, whether or not the display state
    changes, and the line carries the display state and the reason as the
    evaluation leaves them; without it no line is written. *)
Theorem UpdateLoadingScreen_log (E : Engine) (s : ULoadingScreenSubsystem) :
  let r := UpdateLoadingScreen E s in
  LogEntries (calls r)
  = if bLogLoadingScreenReason (Settings E)
    then [(bIsDisplayingLoadingScreen (object r),
           LoadingScreenStateReason (object r))]
    else [].
Proof.
  cbv zeta.
  destruct (UpdateLoadingScreen_cases E s) as (Hcalls & _).
  pose proof (UpdateLoadingScreen_effect E s) as Heval.
  cbv zeta in Hcalls, Heval. destruct Heval as (Hshown & Hreason & _).
  rewrite Hcalls, (ShouldShowLoadingScreen_calls E s), Hshown, Hreason.
  unfold ShowCalls, HideCalls. rewrite !LogEntries_app.
  destruct (negb (result (CheckForDisplayReason E s))),
    (result (ShouldShowLoadingScreen E s)),
    (TimestampIsNone (LoadingScreenLastDismissedTimestamp s)),
    (bIsDisplayingLoadingScreen s), (LoadingScreenWidget s),
    (CreateWidgetInstance E), (ViewportWorldSettings E), (GIsEditor E),
    (GameViewportClient E), (bLogLoadingScreenReason (Settings E));
    reflexivity.
Qed.

(** X8.  Slate is ticked by an evaluation exactly when it brings the screen up
    outside the editor, and then once. *)
Theorem UpdateLoadingScreen_slate_tick
  (E : Engine) (s : ULoadingScreenSubsystem) :
  SlateTicks (calls (UpdateLoadingScreen E s))
  = if negb (bIsDisplayingLoadingScreen s)
       && result (ShouldShowLoadingScreen E s)
       && negb (GIsEditor E)
    then 1%nat else 0%nat.
Proof.
  destruct (UpdateLoadingScreen_cases E s) as (Hcalls & _).
  cbv zeta in Hcalls. rewrite Hcalls, (ShouldShowLoadingScreen_calls E s).
  unfold ShowCalls, HideCalls. rewrite !SlateTicks_app.
  destruct (negb (result (CheckForDisplayReason E s))),
    (result (ShouldShowLoadingScreen E s)),
    (TimestampIsNone (LoadingScreenLastDismissedTimestamp s)),
    (bIsDisplayingLoadingScreen s), (LoadingScreenWidget s),
    (CreateWidgetInstance E), (ViewportWorldSettings E), (GIsEditor E),
    (GameViewportClient E), (bLogLoadingScreenReason (Settings E));
    reflexivity.
Qed.

(** *** Calls that do not evaluate *)

(** A call that does not evaluate makes no call on the engine and leaves
    everything but the two game-logic members. *)
Lemma perform_idle (c : Call) (s : ULoadingScreenSubsystem) :
  evaluation_of c = None ->
  calls (perform c s) = []
  /\ LoadingScreenWidget (object (perform c s)) = LoadingScreenWidget s
  /\ bIsDisplayingLoadingScreen (object (perform c s))
     = bIsDisplayingLoadingScreen s
  /\ LoadingScreenLastDismissedTimestamp (object (perform c s))
     = LoadingScreenLastDismissedTimestamp s.
Proof.
  destruct c as [E0 ?|E0 ?|E0|? ?]; cbn; unfold HandlePreLoadMap, when;
    try destruct (IsInitialized E0); intros Heq;
    try discriminate Heq; repeat split.
Qed.

(** *** The visibility broadcasts of a run *)

Lemma perform_visibility (c : Call) (s : ULoadingScreenSubsystem) :
  let r := perform c s in
  VisibilityBroadcasts (calls r)
  = if Bool.eqb (bIsDisplayingLoadingScreen s)
         (bIsDisplayingLoadingScreen (object r))
    then [] else [bIsDisplayingLoadingScreen (object r)].
Proof.
  cbv zeta. destruct (evaluation_of c) as [E|] eqn:Hkind.
  - rewrite (perform_evaluation c E Hkind).
    pose proof (UpdateLoadingScreen_effect E s) as Heval. cbv zeta in Heval.
    destruct Heval as (Hshown & _ & _ & _ & _ & _ & Hvis).
    rewrite Hvis, Hshown. reflexivity.
  - destruct (perform_idle c s Hkind) as (Hcalls & _ & Hshown & _).
    rewrite Hcalls, Hshown, Bool.eqb_reflx. reflexivity.
Qed.

(** X1.  The visibility delegate mirrors the display state.  Along any sequence
    of calls, from any object, the broadcast values alternate, the first one
    being the opposite of the display state the run starts from, and the
    display state the run ends in is the last value broadcast (the display
    state at the start when nothing was broadcast). *)
Theorem visibility_broadcasts_mirror_display (cs : list Call) :
  forall s0 : ULoadingScreenSubsystem,
    let r := perform_all cs s0 in
    Alternates (bIsDisplayingLoadingScreen s0) (VisibilityBroadcasts (calls r))
    /\ bIsDisplayingLoadingScreen (object r)
       = LastBroadcast (bIsDisplayingLoadingScreen s0)
           (VisibilityBroadcasts (calls r)).
Proof.
  induction cs as [|c rest IH]; intros s0; cbv zeta.
  - split; [exact I | reflexivity].
  - pose proof (perform_visibility c s0) as Hstep. cbv zeta in Hstep.
    cbn [perform_all]. unfold bind.
    destruct (perform c s0) as [[[] s1] l1].
    specialize (IH s1). cbv zeta in IH.
    destruct (perform_all rest s1) as [[[] s2] l2].
    unfold object, calls in *. cbn [fst snd] in *.
    destruct IH as (Halt & Hlast).
    rewrite VisibilityBroadcasts_app, Hstep.
    destruct (bIsDisplayingLoadingScreen s0) eqn:H0,
      (bIsDisplayingLoadingScreen s1) eqn:H1; cbn;
      repeat split; assumption.
Qed.

(** *** The widget and the viewport *)

(** An evaluation keeps widget and display state in step, and with a
    viewport client its viewport calls add and remove the held widget in
    step. *)
Lemma UpdateLoadingScreen_widget (E : Engine) (s : ULoadingScreenSubsystem) :
  WidgetMatchesDisplay s ->
  WidgetMatchesDisplay (object (UpdateLoadingScreen E s))
  /\ (GameViewportClient E = true ->
      ViewportAttached (LoadingScreenWidget s)
        (calls (UpdateLoadingScreen E s))
      = Some (LoadingScreenWidget (object (UpdateLoadingScreen E s)))).
Proof.
  intros Hheld.
  destruct (UpdateLoadingScreen_cases E s) as (Hcalls & Hwidget).
  pose proof (UpdateLoadingScreen_effect E s) as Heval.
  cbv zeta in Hcalls, Hwidget, Heval. destruct Heval as (Hshown & _).
  unfold WidgetMatchesDisplay in *.
  rewrite Hwidget, Hshown, Hcalls, (ShouldShowLoadingScreen_calls E s).
  unfold ShowCalls, HideCalls. rewrite !ViewportAttached_app.
  destruct (LoadingScreenWidget s) as [W|];
    rewrite Hheld; split; try intros ->;
    destruct (negb (result (CheckForDisplayReason E s))),
      (result (ShouldShowLoadingScreen E s)),
      (TimestampIsNone (LoadingScreenLastDismissedTimestamp s)),
      (CreateWidgetInstance E), (ViewportWorldSettings E), (GIsEditor E),
      (bLogLoadingScreenReason (Settings E));
    cbn; rewrite ?SWidget_eqb_refl; reflexivity.
Qed.

Lemma perform_all_widget (cs : list Call) :
  forall s0 : ULoadingScreenSubsystem,
    WidgetMatchesDisplay s0 ->
    WidgetMatchesDisplay (object (perform_all cs s0))
    /\ (Forall (fun E => GameViewportClient E = true) (evaluations cs) ->
        ViewportAttached (LoadingScreenWidget s0) (calls (perform_all cs s0))
        = Some (LoadingScreenWidget (object (perform_all cs s0)))).
Proof.
  induction cs as [|c rest IH]; intros s0 Hheld.
  - split; [exact Hheld | reflexivity].
  - cbn [perform_all evaluations]. unfold bind.
    pose proof (perform_idle c s0) as Hidle.
    pose proof (perform_evaluation c) as Hrun.
    pose proof (UpdateLoadingScreen_widget) as Hstep.
    destruct (evaluation_of c) as [E|].
    + specialize (Hstep E s0 Hheld). rewrite <- (Hrun E eq_refl) in Hstep.
      destruct (perform c s0) as [[[] s1] l1].
      unfold object, calls in Hstep. cbn [fst snd] in Hstep.
      destruct Hstep as (Hheld1 & Hview1).
      destruct (IH s1 Hheld1) as (Hheld2 & Hview2).
      destruct (perform_all rest s1) as [[[] s2] l2].
      unfold object, calls in *. cbn [fst snd] in *.
      split; [exact Hheld2|]. intros Hclient.
      rewrite ViewportAttached_app, (Hview1 (Forall_inv Hclient)).
      exact (Hview2 (Forall_inv_tail Hclient)).
    + destruct (Hidle eq_refl) as (Hcalls & Hwidget & Hshown & _).
      destruct (perform c s0) as [[[] s1] l1].
      unfold object, calls in Hcalls, Hwidget, Hshown.
      cbn [fst snd] in Hcalls, Hwidget, Hshown. subst l1.
      assert (Hheld1 : WidgetMatchesDisplay s1)
        by (unfold WidgetMatchesDisplay in *; rewrite Hwidget, Hshown;
            exact Hheld).
      destruct (IH s1 Hheld1) as (Hheld2 & Hview2).
      destruct (perform_all rest s1) as [[[] s2] l2].
      unfold object, calls in *. cbn [fst snd app] in *.
      split; [exact Hheld2|]. intros Hclient.
      rewrite <- Hwidget. exact (Hview2 Hclient).
Qed.

(** An evaluation does not leave a widget behind a hidden screen, and
    displays a screen without widget only where it found one. *)
Lemma UpdateLoadingScreen_widget_needs_display
  (Excuse : Prop) (E : Engine) (s : ULoadingScreenSubsystem) :
  WidgetNeedsDisplay Excuse s ->
  WidgetNeedsDisplay Excuse (object (UpdateLoadingScreen E s)).
Proof.
  intros Hheld.
  destruct (UpdateLoadingScreen_cases E s) as (_ & Hwidget).
  pose proof (UpdateLoadingScreen_effect E s) as Heval.
  cbv zeta in Hwidget, Heval. destruct Heval as (Hshown & _).
  unfold WidgetNeedsDisplay in *. rewrite Hwidget, Hshown.
  destruct (result (ShouldShowLoadingScreen E s)),
    (bIsDisplayingLoadingScreen s), (LoadingScreenWidget s);
    auto; try discriminate Hheld; destruct Hheld as [Hheld|Hheld]; auto;
    discriminate Hheld.
Qed.

Lemma perform_lifecycle_widget
  (Excuse : Prop) (c : LifecycleCall) (s : ULoadingScreenSubsystem) :
  WidgetNeedsDisplay Excuse s ->
  WidgetNeedsDisplay (Excuse \/ IsDeinitialize c = true)
    (object (perform_lifecycle c s)).
Proof.
  intros Hheld. destruct c as [c|E]; cbn [perform_lifecycle IsDeinitialize].
  - assert (Hsame : WidgetNeedsDisplay Excuse (object (perform c s))).
    { destruct (evaluation_of c) as [E|] eqn:Hkind.
      - rewrite (perform_evaluation c E Hkind).
        apply UpdateLoadingScreen_widget_needs_display. exact Hheld.
      - destruct (perform_idle c s Hkind) as (_ & Hwidget & Hshown & _).
        unfold WidgetNeedsDisplay in *. rewrite Hwidget, Hshown.
        exact Hheld. }
    unfold WidgetNeedsDisplay in *.
    destruct (LoadingScreenWidget (object (perform c s)));
      [exact Hsame | destruct Hsame; auto].
  - destruct s as [Widget Displaying Reason Stamp ByGameLogic UserReason].
    unfold WidgetNeedsDisplay, Deinitialize, RemoveWidget, bind, gets, when.
    destruct Widget, (GameViewportClient E); cbn; auto.
Qed.

Lemma perform_lifecycle_all_widget (cs : list LifecycleCall) :
  forall (Excuse : Prop) (s0 : ULoadingScreenSubsystem),
    WidgetNeedsDisplay Excuse s0 ->
    WidgetNeedsDisplay (Excuse \/ existsb IsDeinitialize cs = true)
      (object (perform_lifecycle_all cs s0)).
Proof.
  induction cs as [|c rest IH]; intros Excuse s0 Hheld.
  - unfold WidgetNeedsDisplay in *. cbn.
    destruct (LoadingScreenWidget s0); [exact Hheld | destruct Hheld; auto].
  - pose proof (perform_lifecycle_widget Excuse c s0 Hheld) as Hstep.
    cbn [perform_lifecycle_all existsb]. unfold bind.
    destruct (perform_lifecycle c s0) as [[[] s1] l1].
    unfold object in Hstep. cbn [fst snd] in Hstep.
    specialize (IH _ s1 Hstep).
    destruct (perform_lifecycle_all rest s1) as [[[] s2] l2].
    unfold object in *. cbn [fst snd] in *.
    unfold WidgetNeedsDisplay in *.
    destruct (LoadingScreenWidget s2); [exact IH|].
    destruct IH as [IH|[[IH|IH]|IH]]; auto;
      right; right; rewrite IH; auto using Bool.orb_true_r.
Qed.

(** X2.  A held widget means a displayed screen.  In every object reached
    from the constructed one by ticks, load-map hooks, commands of game
    logic and [Deinitialize], a valid [LoadingScreenWidget] implies that
    [bIsDisplayingLoadingScreen] is set; and the flag is set without a
    widget only in a run in which [Deinitialize] has been called, which
    drops the widget and leaves the flag.  In a run without [Deinitialize]
    the widget is therefore valid if and only if the flag is set. *)
Theorem widget_held_only_while_displayed (cs : list LifecycleCall) :
  let s := object (perform_lifecycle_all cs NewSubsystem) in
  match LoadingScreenWidget s with
  | Some _ => bIsDisplayingLoadingScreen s = true
  | None =>
      bIsDisplayingLoadingScreen s = false
      \/ existsb IsDeinitialize cs = true
  end.
Proof.
  cbv zeta.
  pose proof (perform_lifecycle_all_widget cs False NewSubsystem
                (or_introl eq_refl)) as Hheld.
  unfold WidgetNeedsDisplay in Hheld.
  destruct (LoadingScreenWidget
              (object (perform_lifecycle_all cs NewSubsystem)));
    [exact Hheld | destruct Hheld as [Hheld|[[]|Hheld]]; auto].
Qed.

(** X3.  The viewport calls are in step.  In a run from the constructed object
    in which the viewport client is there at every evaluation, a widget is
    added to the viewport only when none is attached, the widget removed is
    always the one attached, and what is attached at the end is the widget
    the object holds. *)
Theorem viewport_calls_in_step (cs : list Call) :
  Forall (fun E => GameViewportClient E = true) (evaluations cs) ->
  ViewportAttached None (calls (perform_all cs NewSubsystem))
  = Some (LoadingScreenWidget (object (perform_all cs NewSubsystem))).
Proof.
  exact (proj2 (perform_all_widget cs NewSubsystem eq_refl)).
Qed.

(** *** When the widget cannot be created *)

(** The outcome of the widget creation is not read by the decision. *)
Lemma ShouldShowLoadingScreen_with_CreateWidgetInstance
  (Created : bool) (E : Engine) (s : ULoadingScreenSubsystem) :
  ShouldShowLoadingScreen (with_CreateWidgetInstance Created E) s
  = ShouldShowLoadingScreen E s.
Proof. reflexivity. Qed.

(** X5.  A widget class that cannot be loaded does not disturb the subsystem:
    the evaluation leaves the same display state, reason and timestamp and
    makes the same broadcasts as when the class loads.  When the evaluation
    brings the screen up, the failure is logged and the throbber is held and
    added to the viewport at the configured Z order, in place of the widget
    of the configured class. *)
Theorem widget_creation_failure_falls_back
  (E : Engine) (s : ULoadingScreenSubsystem) :
  let made := UpdateLoadingScreen (with_CreateWidgetInstance true E) s in
  let failed := UpdateLoadingScreen (with_CreateWidgetInstance false E) s in
  bIsDisplayingLoadingScreen (object failed)
  = bIsDisplayingLoadingScreen (object made)
  /\ LoadingScreenStateReason (object failed)
     = LoadingScreenStateReason (object made)
  /\ LoadingScreenLastDismissedTimestamp (object failed)
     = LoadingScreenLastDismissedTimestamp (object made)
  /\ VisibilityBroadcasts (calls failed) = VisibilityBroadcasts (calls made)
  /\ HoldTimeBroadcasts (calls failed) = HoldTimeBroadcasts (calls made)
  /\ (bIsDisplayingLoadingScreen s = false ->
      bIsDisplayingLoadingScreen (object failed) = true ->
      LoadingScreenWidget (object failed) = Some SThrobber
      /\ LoadingScreenWidget (object made)
         = Some (TakeWidget (LoadingScreenWidgetClassPath (Settings E)))
      /\ In (LogWidgetLoadFailed (LoadingScreenWidgetClassPath (Settings E)))
           (calls failed)
      /\ In (AddViewportWidgetContent SThrobber (ZOrder (Settings E)))
           (calls failed)
      /\ ~ In (LogWidgetLoadFailed (LoadingScreenWidgetClassPath (Settings E)))
             (calls made)).
Proof.
  intros made failed.
  pose proof (UpdateLoadingScreen_effect (with_CreateWidgetInstance true E) s)
    as Hmade.
  pose proof (UpdateLoadingScreen_effect (with_CreateWidgetInstance false E) s)
    as Hfailed.
  cbv zeta in Hmade, Hfailed.
  rewrite ShouldShowLoadingScreen_with_CreateWidgetInstance in Hmade, Hfailed.
  fold made in Hmade. fold failed in Hfailed.
  destruct Hmade as (M1 & M2 & M3 & _ & _ & M6 & M7).
  destruct Hfailed as (F1 & F2 & F3 & _ & _ & F6 & F7).
  do 5 (split; [congruence|]).
  intros Hhidden Hshown.
  destruct (UpdateLoadingScreen_cases (with_CreateWidgetInstance true E) s)
    as (Hcalls1 & Hwidget1).
  destruct (UpdateLoadingScreen_cases (with_CreateWidgetInstance false E) s)
    as (Hcalls2 & Hwidget2).
  cbv zeta in Hcalls1, Hwidget1, Hcalls2, Hwidget2.
  rewrite ShouldShowLoadingScreen_with_CreateWidgetInstance
    in Hcalls1, Hwidget1, Hcalls2, Hwidget2.
  fold made in Hcalls1, Hwidget1. fold failed in Hcalls2, Hwidget2.
  rewrite F1 in Hshown.
  rewrite Hshown, Hhidden in Hcalls1, Hwidget1, Hcalls2, Hwidget2.
  split; [|split; [|split; [|split]]].
  - exact Hwidget2.
  - exact Hwidget1.
  - rewrite Hcalls2. apply in_or_app. right. apply in_or_app. left.
    unfold ShowCalls. cbn. right. left. reflexivity.
  - rewrite Hcalls2. apply in_or_app. right. apply in_or_app. left.
    unfold ShowCalls. cbn. right. right. left. reflexivity.
  - rewrite Hcalls1, (ShouldShowLoadingScreen_calls E s).
    unfold ShowCalls. cbn.
    repeat match goal with
      | |- context [if ?c then _ else _] => destruct c
      end;
      cbn; intros Hin;
      repeat (destruct Hin as [Hin|Hin]; [discriminate Hin|]);
      exact Hin.
Qed.

(** *** The members written by game logic *)

Lemma perform_members (c : Call) (s : ULoadingScreenSubsystem) :
  (bIsDisplayedByGameLogic (object (perform c s)),
   UserSpecifiedLoadingScreenReason (object (perform c s)))
  = match c with
    | CallForceDisplayStateByGameLogic Visibility Reason =>
        (Visibility, Reason)
    | _ => (bIsDisplayedByGameLogic s, UserSpecifiedLoadingScreenReason s)
    end.
Proof.
  destruct c as [E0 ?|E0 ?|E0|? ?]; cbn; unfold Tick, HandlePreLoadMap, when;
    try destruct (IsInitialized E0); try reflexivity;
    pose proof (UpdateLoadingScreen_effect E0 s) as Heval;
    cbv zeta in Heval; destruct Heval as (_ & _ & _ & Hflag & Huser & _);
    rewrite Hflag, Huser; reflexivity.
Qed.

(** X10.  What game logic asked for stays until game logic asks again: after any
    sequence of calls, [bIsDisplayedByGameLogic] and
    [UserSpecifiedLoadingScreenReason] hold the arguments of the latest
    [ForceDisplayStateByGameLogic], or what they held at the start when
    there was none; no tick and no lifecycle hook writes them. *)
Theorem game_logic_request_persists (cs : list Call) :
  forall s0 : ULoadingScreenSubsystem,
    let s := object (perform_all cs s0) in
    (bIsDisplayedByGameLogic s, UserSpecifiedLoadingScreenReason s)
    = match last_force cs with
      | Some request => request
      | None =>
          (bIsDisplayedByGameLogic s0, UserSpecifiedLoadingScreenReason s0)
      end.
Proof.
  induction cs as [|c rest IH]; intros s0; cbv zeta.
  - reflexivity.
  - cbn [perform_all last_force]. unfold bind.
    pose proof (perform_members c s0) as Hstep.
    destruct (perform c s0) as [[[] s1] l1].
    specialize (IH s1). cbv zeta in IH.
    destruct (perform_all rest s1) as [[[] s2] l2].
    unfold object in *. cbn [fst snd] in *.
    rewrite IH. destruct (last_force rest); [reflexivity|].
    rewrite Hstep. destruct c; reflexivity.
Qed.

(** *** Tearing the widget down *)

(** X18.  [RemoveWidget], which is all [Deinitialize] does to the object, drops
    the held widget and removes it from the viewport when the viewport
    client is there; it never broadcasts and it leaves the display flag as
    it is, so a screen torn down this way is still reported as displayed.
    A second call finds no widget and does nothing. *)
Theorem Deinitialize_effect (E E' : Engine) (s : ULoadingScreenSubsystem) :
  let r := Deinitialize E s in
  LoadingScreenWidget (object r) = None
  /\ bIsDisplayingLoadingScreen (object r) = bIsDisplayingLoadingScreen s
  /\ VisibilityBroadcasts (calls r) = []
  /\ calls r
     = match LoadingScreenWidget s with
       | Some W =>
           if GameViewportClient E then [RemoveViewportWidgetContent W]
           else []
       | None => []
       end
  /\ Deinitialize E' (object r) = (tt, object r, []).
Proof.
  cbv zeta.
  destruct s as [Widget Displaying Reason Stamp ByGameLogic UserReason].
  unfold Deinitialize, RemoveWidget, bind, gets, when.
  destruct Widget, (GameViewportClient E); repeat split.
Qed.

(** *** A request of game logic, at the next evaluation *)

(** X11.  After [ForceDisplayStateByGameLogic] with [true], the next evaluation
    under engine answers that give no blocking reason of their own (display
    not forced in the settings, a world that has begun play) displays the
    screen and stores the reason game logic gave, or the placeholder text
    when that reason is empty; the timestamp is none afterwards, and the
    visibility delegate is broadcast only if the screen was hidden. *)
Theorem game_logic_request_shows_screen
  (E : Engine) (Reason : FString) (s : ULoadingScreenSubsystem) :
  bForceDisplayLoadingScreen (Settings E) = false ->
  worldHasBegunPlay E = true ->
  let asked := object (ForceDisplayStateByGameLogic true Reason s) in
  let r := UpdateLoadingScreen E asked in
  bIsDisplayingLoadingScreen (object r) = true
  /\ LoadingScreenStateReason (object r)
     = (if IsEmpty Reason
        then "Reason not specified in ForceDisplayStateByGameLogic. Assumed gameplay logic."
        else Reason)
  /\ LoadingScreenLastDismissedTimestamp (object r) = (-1)%float
  /\ VisibilityBroadcasts (calls r)
     = if bIsDisplayingLoadingScreen s then [] else [true].
Proof.
  intros Hfree Hplay asked r.
  assert (Hwhy :
    evaluateBlockingReason E asked
    = (true,
       if IsEmpty Reason
       then "Reason not specified in ForceDisplayStateByGameLogic. Assumed gameplay logic."
       else Reason)).
  { unfold evaluateBlockingReason, BlockingChecks, hasWorldContext,
      worldExists, worldHasBegunPlay in Hplay |- *.
    destruct (GetWorldContext (GameInstance E)) as [Context|];
      [|discriminate Hplay].
    destruct (World Context) as [TheWorld|]; [|discriminate Hplay].
    cbn. rewrite Hfree, Hplay. reflexivity. }
  assert (Hblock : result (CheckForDisplayReason E asked) = true)
    by (rewrite CheckForDisplayReason_result, Hwhy; reflexivity).
  pose proof (UpdateLoadingScreen_effect E asked) as Heval.
  cbv zeta in Heval. fold r in Heval.
  destruct Heval as (Hshown & Hreason & Hstamp & _ & _ & _ & Hvis).
  rewrite (ShouldShowLoadingScreen_blocking E asked Hblock), Hwhy
    in Hshown, Hreason, Hstamp, Hvis.
  split; [exact Hshown|]. split; [exact Hreason|]. split; [exact Hstamp|].
  rewrite Hvis. unfold result, asked. cbn.
  destruct (bIsDisplayingLoadingScreen s); reflexivity.
Qed.

(** *** Waiting, right after an evaluation *)

(** X12.  Right after an evaluation, under the same engine answers,
    [IsWaitingForAdditionalTime] is true exactly when the evaluation found
    no blocking reason, decided to keep the screen up, and left a timestamp
    above zero.  So it is never true while a blocking reason holds or once
    the screen is hidden, and the editor override of the hold time, which
    the query does not read, cannot make it true. *)
Theorem IsWaitingForAdditionalTime_after_evaluation
  (E : Engine) (s : ULoadingScreenSubsystem) :
  let r := UpdateLoadingScreen E s in
  IsWaitingForAdditionalTime E (object r)
  = negb (result (CheckForDisplayReason E s))
    && result (ShouldShowLoadingScreen E s)
    && (0 <? LoadingScreenLastDismissedTimestamp (object r)).
Proof.
  cbv zeta.
  pose proof (UpdateLoadingScreen_effect E s) as Heval. cbv zeta in Heval.
  destruct Heval as (Hshown & _ & Hstamp & _).
  rewrite IsWaitingForAdditionalTime_eq, Hshown, Hstamp.
  destruct (result (CheckForDisplayReason E s)) eqn:Hcheck.
  - rewrite (ShouldShowLoadingScreen_blocking E s Hcheck). cbn.
    destruct (HoldLoadingScreenAdditionalSecs (Settings E) <=? 0);
      reflexivity.
  - destruct (result (ShouldShowLoadingScreen E s)) eqn:Hdecide;
      [|reflexivity].
    rewrite (ShouldShowLoadingScreen_clear E s Hcheck) in Hdecide |- *.
    cbv zeta in Hdecide |- *.
    destruct (InGraceWindow E _) eqn:Hwindow; [|discriminate Hdecide].
    unfold InGraceWindow in Hwindow.
    apply Bool.andb_true_iff in Hwindow. destruct Hwindow as (Hpositive & _).
    assert (Hhold :
      (HoldLoadingScreenAdditionalSecs (Settings E) <=? 0) = false).
    { apply positive_not_at_or_below_zero.
      unfold HoldLoadingScreenTime in Hpositive.
      destruct (GIsEditor E
                && Bool.eqb
                     (bShowLoadingScreenAdditionalSecsInEditor (Settings E))
                     false);
        [discriminate Hpositive | exact Hpositive]. }
    rewrite Hhold. reflexivity.
Qed.

(** X13.  In the editor with [bShowLoadingScreenAdditionalSecsInEditor] off, no
    evaluation leaves the subsystem waiting: [IsWaitingForAdditionalTime] is
    false after every evaluation, whatever hold time is configured. *)
Theorem editor_never_waits (E E' : Engine) (s : ULoadingScreenSubsystem) :
  GIsEditor E = true ->
  bShowLoadingScreenAdditionalSecsInEditor (Settings E) = false ->
  IsWaitingForAdditionalTime E' (object (UpdateLoadingScreen E s)) = false.
Proof.
  intros Heditor Hoff.
  pose proof (UpdateLoadingScreen_effect E s) as Heval. cbv zeta in Heval.
  destruct Heval as (Hshown & _ & Hstamp & _).
  rewrite IsWaitingForAdditionalTime_eq, Hshown, Hstamp.
  destruct (result (CheckForDisplayReason E s)) eqn:Hcheck.
  - rewrite (ShouldShowLoadingScreen_blocking E s Hcheck). cbn.
    destruct (HoldLoadingScreenAdditionalSecs (Settings E') <=? 0);
      reflexivity.
  - rewrite (ShouldShowLoadingScreen_clear E s Hcheck). cbv zeta.
    unfold InGraceWindow, HoldLoadingScreenTime. rewrite Heditor, Hoff.
    reflexivity.
Qed.

(** *** The screen hidden by an evaluation *)

(** X14.  An evaluation leaves the screen hidden only if it found no blocking
    reason and the grace window is over, or none applies; the stored reason
    is then "No reason to display." and the timestamp is the one it found,
    or the clock reading if it found none. *)
Theorem hidden_after_evaluation (E : Engine) (s : ULoadingScreenSubsystem) :
  let r := UpdateLoadingScreen E s in
  bIsDisplayingLoadingScreen (object r) = false ->
  result (CheckForDisplayReason E s) = false
  /\ LoadingScreenStateReason (object r) = "No reason to display."
  /\ LoadingScreenLastDismissedTimestamp (object r)
     = (if TimestampIsNone (LoadingScreenLastDismissedTimestamp s)
        then Seconds E else LoadingScreenLastDismissedTimestamp s)
  /\ InGraceWindow E (LoadingScreenLastDismissedTimestamp (object r)) = false.
Proof.
  cbv zeta.
  pose proof (UpdateLoadingScreen_effect E s) as Heval. cbv zeta in Heval.
  destruct Heval as (Hshown & Hreason & Hstamp & _).
  rewrite Hshown, Hreason, Hstamp.
  destruct (result (CheckForDisplayReason E s)) eqn:Hcheck.
  - rewrite (ShouldShowLoadingScreen_blocking E s Hcheck).
    intros Hhidden. discriminate Hhidden.
  - rewrite (ShouldShowLoadingScreen_clear E s Hcheck). cbv zeta.
    assert (Hwhy :
      snd (evaluateBlockingReason E s) = "No reason to display.").
    { rewrite CheckForDisplayReason_result in Hcheck.
      unfold evaluateBlockingReason in *.
      induction (BlockingChecks E s) as [|[matches reason] later IH].
      - reflexivity.
      - cbn in Hcheck |- *. destruct matches; [discriminate | exact (IH Hcheck)]. }
    rewrite Hwhy.
    destruct (TimestampIsNone (LoadingScreenLastDismissedTimestamp s));
      match goal with
      | |- context [if ?c then _ else _] => destruct c eqn:Hwindow
      end; intros Hhidden; try discriminate Hhidden;
      repeat split; exact Hwindow.
Qed.

(** *** A new episode after a blocking reason *)

(** X15.  A blocking reason ends the hold for good: when an evaluation finds one
    and the next finds none, that next evaluation takes a fresh timestamp
    and broadcasts the hold time again, whatever timestamp was stored
    before. *)
Theorem hold_restarts_after_blocking_reason
  (E1 E2 : Engine) (s : ULoadingScreenSubsystem) :
  result (CheckForDisplayReason E1 s) = true ->
  result (CheckForDisplayReason E2 s) = false ->
  let r := evaluate_all [E1; E2] s in
  HoldTimeBroadcasts (calls r) = [HoldLoadingScreenTime E2]
  /\ LoadingScreenLastDismissedTimestamp (object r) = Seconds E2.
Proof.
  intros Hblock Hclear. cbv zeta.
  pose proof (UpdateLoadingScreen_effect E1 s) as Heval. cbv zeta in Heval.
  destruct Heval as (_ & _ & Hstamp & Hflag & _ & Hhold & _).
  rewrite (ShouldShowLoadingScreen_blocking E1 s Hblock) in Hstamp, Hhold.
  cbn [evaluate_all]. unfold bind.
  destruct (UpdateLoadingScreen E1 s) as [[[] s1] l1].
  unfold object, calls in Hstamp, Hflag, Hhold.
  cbn [fst snd] in Hstamp, Hflag, Hhold.
  assert (Hnone :
    TimestampIsNone (LoadingScreenLastDismissedTimestamp s1) = true)
    by (rewrite Hstamp; reflexivity).
  assert (Hclear1 : result (CheckForDisplayReason E2 s1) = false)
    by (rewrite (CheckForDisplayReason_result_flag E2 s1 s Hflag);
        exact Hclear).
  destruct (UpdateLoadingScreen_first_clear E2 s1 Hclear1 Hnone)
    as (Hhold2 & Hstamp2).
  destruct (UpdateLoadingScreen E2 s1) as [[[] s2] l2].
  unfold object, calls, ret in *. cbn [fst snd] in *.
  rewrite app_nil_r, HoldTimeBroadcasts_app, Hhold, Hhold2.
  split; [reflexivity | exact Hstamp2].
Qed.

(** *** The values of the timestamp *)

Lemma UpdateLoadingScreen_timestamp (E : Engine) (s : ULoadingScreenSubsystem) :
  let t := LoadingScreenLastDismissedTimestamp (object (UpdateLoadingScreen E s)) in
  t = (-1)%float \/ t = Seconds E
  \/ t = LoadingScreenLastDismissedTimestamp s.
Proof.
  cbv zeta.
  pose proof (UpdateLoadingScreen_effect E s) as Heval. cbv zeta in Heval.
  destruct Heval as (_ & _ & Hstamp & _). rewrite Hstamp.
  destruct (result (CheckForDisplayReason E s)) eqn:Hcheck.
  - rewrite (ShouldShowLoadingScreen_blocking E s Hcheck). left. reflexivity.
  - rewrite (ShouldShowLoadingScreen_clear E s Hcheck). cbv zeta.
    destruct (TimestampIsNone (LoadingScreenLastDismissedTimestamp s)),
      (InGraceWindow E _); cbn; auto.
Qed.

Lemma perform_all_timestamp (cs : list Call) :
  forall s0 : ULoadingScreenSubsystem,
    let t := LoadingScreenLastDismissedTimestamp (object (perform_all cs s0)) in
    t = (-1)%float
    \/ In t (map Seconds (evaluations cs))
    \/ t = LoadingScreenLastDismissedTimestamp s0.
Proof.
  induction cs as [|c rest IH]; intros s0; cbv zeta.
  - right. right. reflexivity.
  - cbn [perform_all evaluations]. unfold bind.
    pose proof (perform_idle c s0) as Hidle.
    pose proof (perform_evaluation c) as Hrun.
    pose proof (UpdateLoadingScreen_timestamp) as Hstep.
    destruct (perform c s0) as [[[] s1] l1] eqn:Hperform.
    specialize (IH s1). cbv zeta in IH.
    destruct (perform_all rest s1) as [[[] s2] l2].
    unfold object, calls in *. cbn [fst snd] in *.
    destruct (evaluation_of c) as [E|].
    + specialize (Hstep E s0). cbv zeta in Hstep.
      rewrite <- (Hrun E eq_refl), Hperform in Hstep. cbn [fst snd] in Hstep.
      cbn [map In].
      destruct IH as [IH|[IH|IH]]; [auto | auto |].
      rewrite IH. destruct Hstep as [Hstep|[Hstep|Hstep]]; auto.
    + destruct (Hidle eq_refl) as (_ & _ & _ & Hstamp).
      rewrite <- Hstamp. exact IH.
Qed.

(** X16.  The timestamp is the marker or a clock reading: in every object reached
    from the constructed one, [LoadingScreenLastDismissedTimestamp] is
    [-1.0] or the clock reading of one of the evaluations of the run. *)
Theorem timestamp_is_marker_or_clock_reading (cs : list Call) :
  let t :=
    LoadingScreenLastDismissedTimestamp
      (object (perform_all cs NewSubsystem)) in
  t = (-1)%float \/ In t (map Seconds (evaluations cs)).
Proof.
  cbv zeta.
  destruct (perform_all_timestamp cs NewSubsystem) as [H|[H|H]]; auto.
Qed.

(** X17.  With clock readings above zero at every evaluation, the two readings of
    the timestamp agree on every object reached from the constructed one: it
    is above zero exactly when it is not none.  For a configured hold time
    that is a number, [IsWaitingForAdditionalTime] is then true if and only
    if the screen is displayed, the timestamp is not none and the configured
    hold time is above zero. *)
Theorem positive_clock_readings_agree (cs : list Call) :
  Forall (fun E => (0 <? Seconds E) = true) (evaluations cs) ->
  let s := object (perform_all cs NewSubsystem) in
  (0 <? LoadingScreenLastDismissedTimestamp s)
  = TimestampIsSet (LoadingScreenLastDismissedTimestamp s)
  /\ forall E : Engine,
       is_nan (HoldLoadingScreenAdditionalSecs (Settings E)) = false ->
       IsWaitingForAdditionalTime E s
       = bIsDisplayingLoadingScreen s
         && TimestampIsSet (LoadingScreenLastDismissedTimestamp s)
         && (0 <? HoldLoadingScreenAdditionalSecs (Settings E)).
Proof.
  intros Hclock s.
  assert (Hagree :
    (0 <? LoadingScreenLastDismissedTimestamp s)
    = TimestampIsSet (LoadingScreenLastDismissedTimestamp s)).
  { destruct (perform_all_timestamp cs NewSubsystem) as [H|[H|H]];
      fold s in H.
    - rewrite H. reflexivity.
    - apply in_map_iff in H. destruct H as (E & Hread & Hin).
      rewrite Forall_forall in Hclock. specialize (Hclock E Hin).
      rewrite <- Hread. unfold TimestampIsSet, TimestampIsNone.
      rewrite Hclock, (positive_not_negative _ Hclock). reflexivity.
    - rewrite H. reflexivity. }
  split; [exact Hagree|]. intros E Hnumber.
  apply IsWaitingForAdditionalTime_where_tests_agree;
    [exact Hagree | apply number_at_or_below_zero; exact Hnumber].
Qed.

(** *** What listeners of the visibility delegate find in the viewport *)

Lemma AttachedAfter_app (Attached : option SWidget) (l1 l2 : list Event) :
  AttachedAfter Attached (l1 ++ l2)
  = AttachedAfter (AttachedAfter Attached l1) l2.
Proof.
  revert Attached. induction l1 as [|e l1 IH]; intros Attached;
    [reflexivity|].
  destruct e; cbn; apply IH.
Qed.

Lemma AttachedAtBroadcasts_app
  (Attached : option SWidget) (l1 l2 : list Event) :
  AttachedAtBroadcasts Attached (l1 ++ l2)
  = (AttachedAtBroadcasts Attached l1
     ++ AttachedAtBroadcasts (AttachedAfter Attached l1) l2)%list.
Proof.
  revert Attached. induction l1 as [|e l1 IH]; intros Attached;
    [reflexivity|].
  destruct e; cbn; rewrite IH; reflexivity.
Qed.

Lemma UpdateLoadingScreen_attached (E : Engine) (s : ULoadingScreenSubsystem) :
  WidgetMatchesDisplay s ->
  GameViewportClient E = true ->
  let r := UpdateLoadingScreen E s in
  AttachedAfter (LoadingScreenWidget s) (calls r)
  = LoadingScreenWidget (object r)
  /\ Forall (fun at_broadcast => snd at_broadcast = None)
       (AttachedAtBroadcasts (LoadingScreenWidget s) (calls r)).
Proof.
  intros Hheld Hclient. cbv zeta.
  destruct (UpdateLoadingScreen_cases E s) as (Hcalls & Hwidget).
  cbv zeta in Hcalls, Hwidget.
  unfold WidgetMatchesDisplay in Hheld.
  rewrite Hwidget, Hcalls, (ShouldShowLoadingScreen_calls E s).
  unfold ShowCalls, HideCalls.
  rewrite !AttachedAfter_app, !AttachedAtBroadcasts_app, Hclient.
  destruct (LoadingScreenWidget s) as [W|];
    rewrite Hheld;
    destruct (negb (result (CheckForDisplayReason E s))),
      (result (ShouldShowLoadingScreen E s)),
      (TimestampIsNone (LoadingScreenLastDismissedTimestamp s)),
      (CreateWidgetInstance E), (ViewportWorldSettings E), (GIsEditor E),
      (bLogLoadingScreenReason (Settings E));
    cbn; split; try reflexivity; repeat constructor.
Qed.

Lemma perform_all_attached (cs : list Call) :
  forall s0 : ULoadingScreenSubsystem,
    WidgetMatchesDisplay s0 ->
    Forall (fun E => GameViewportClient E = true) (evaluations cs) ->
    let r := perform_all cs s0 in
    AttachedAfter (LoadingScreenWidget s0) (calls r)
    = LoadingScreenWidget (object r)
    /\ Forall (fun at_broadcast => snd at_broadcast = None)
         (AttachedAtBroadcasts (LoadingScreenWidget s0) (calls r)).
Proof.
  induction cs as [|c rest IH]; intros s0 Hheld Hclient; cbv zeta.
  - split; [reflexivity | constructor].
  - cbn [perform_all evaluations] in Hclient |- *. unfold bind.
    pose proof (perform_idle c s0) as Hidle.
    pose proof (perform_evaluation c) as Hrun.
    pose proof (UpdateLoadingScreen_attached) as Hstep.
    pose proof (UpdateLoadingScreen_widget) as Hkeep.
    destruct (evaluation_of c) as [E|].
    + specialize (Hstep E s0 Hheld (Forall_inv Hclient)).
      specialize (Hkeep E s0 Hheld).
      cbv zeta in Hstep. rewrite <- (Hrun E eq_refl) in Hstep, Hkeep.
      destruct (perform c s0) as [[[] s1] l1].
      unfold object, calls in Hstep, Hkeep. cbn [fst snd] in Hstep, Hkeep.
      destruct Hstep as (Hafter1 & Hat1). destruct Hkeep as (Hheld1 & _).
      specialize (IH s1 Hheld1 (Forall_inv_tail Hclient)). cbv zeta in IH.
      destruct (perform_all rest s1) as [[[] s2] l2].
      unfold object, calls in *. cbn [fst snd] in *.
      destruct IH as (Hafter2 & Hat2).
      rewrite AttachedAfter_app, AttachedAtBroadcasts_app, Hafter1.
      split; [exact Hafter2 | apply Forall_app; split; assumption].
    + destruct (Hidle eq_refl) as (Hcalls & Hwidget & Hshown & _).
      destruct (perform c s0) as [[[] s1] l1].
      unfold object, calls in Hcalls, Hwidget, Hshown.
      cbn [fst snd] in Hcalls, Hwidget, Hshown. subst l1.
      assert (Hheld1 : WidgetMatchesDisplay s1)
        by (unfold WidgetMatchesDisplay in *; rewrite Hwidget, Hshown;
            exact Hheld).
      specialize (IH s1 Hheld1 Hclient). cbv zeta in IH.
      destruct (perform_all rest s1) as [[[] s2] l2].
      unfold object, calls in *. cbn [fst snd app] in *.
      rewrite <- Hwidget. exact IH.
Qed.

(** X4.  Listeners of the visibility delegate never find the widget in the
    viewport.  In a run from the constructed object in which the viewport
    client is there at every evaluation, no widget is attached at the moment
    of any visibility broadcast: the broadcast of true is made before the
    widget is added, the broadcast of false after it has been removed. *)
Theorem no_widget_attached_at_visibility_broadcast (cs : list Call) :
  Forall (fun E => GameViewportClient E = true) (evaluations cs) ->
  Forall (fun at_broadcast => snd at_broadcast = None)
    (AttachedAtBroadcasts None (calls (perform_all cs NewSubsystem))).
Proof.
  intros Hclient.
  exact (proj2 (perform_all_attached cs NewSubsystem eq_refl Hclient)).
Qed.

(** *** Streaming priority *)

Lemma HighPriorityWrites_app (l1 l2 : list Event) :
  HighPriorityWrites (l1 ++ l2)
  = (HighPriorityWrites l1 ++ HighPriorityWrites l2)%list.
Proof.
  induction l1 as [|e l1 IH]; [reflexivity|].
  destruct e; cbn; rewrite IH; reflexivity.
Qed.

(** X9.  [bHighPriorityLoadingLocal] follows the display state: an evaluation
    writes it exactly when it shows or hides the screen and the viewport has
    a world with world settings, once, with the new display state. *)
Theorem UpdateLoadingScreen_streaming_priority
  (E : Engine) (s : ULoadingScreenSubsystem) :
  let r := UpdateLoadingScreen E s in
  HighPriorityWrites (calls r)
  = if Bool.eqb (bIsDisplayingLoadingScreen s)
         (bIsDisplayingLoadingScreen (object r))
       || negb (ViewportWorldSettings E)
    then [] else [bIsDisplayingLoadingScreen (object r)].
Proof.
  cbv zeta.
  destruct (UpdateLoadingScreen_cases E s) as (Hcalls & _).
  pose proof (UpdateLoadingScreen_effect E s) as Heval.
  cbv zeta in Hcalls, Heval. destruct Heval as (Hshown & _).
  rewrite Hcalls, (ShouldShowLoadingScreen_calls E s), Hshown.
  unfold ShowCalls, HideCalls. rewrite !HighPriorityWrites_app.
  destruct (negb (result (CheckForDisplayReason E s))),
    (result (ShouldShowLoadingScreen E s)),
    (TimestampIsNone (LoadingScreenLastDismissedTimestamp s)),
    (bIsDisplayingLoadingScreen s), (LoadingScreenWidget s),
    (CreateWidgetInstance E), (ViewportWorldSettings E), (GIsEditor E),
    (GameViewportClient E), (bLogLoadingScreenReason (Settings E));
    reflexivity.
Qed.

(** *** Waiting for the additional time, on the objects the code reaches *)

(** C7.  [IsWaitingForAdditionalTime] returns true if and only if the
    screen is displayed, the timestamp is not none and the configured hold
    time is above zero.  This holds for every object the subsystem reaches
    from the constructed one under the engine's clock, whose readings are
    above zero, and for every configuration whose hold time is a number. *)
Theorem IsWaitingForAdditionalTime_iff (cs : list Call) (E : Engine) :
  Forall (fun E' => (0 <? Seconds E') = true) (evaluations cs) ->
  is_nan (HoldLoadingScreenAdditionalSecs (Settings E)) = false ->
  let s := object (perform_all cs NewSubsystem) in
  IsWaitingForAdditionalTime E s = true <->
  bIsDisplayingLoadingScreen s = true
  /\ TimestampIsSet (LoadingScreenLastDismissedTimestamp s) = true
  /\ (0 <? HoldLoadingScreenAdditionalSecs (Settings E)) = true.
Proof.
  intros Hclock Hnumber s.
  assert (Hagree :
    (0 <? LoadingScreenLastDismissedTimestamp s)
    = TimestampIsSet (LoadingScreenLastDismissedTimestamp s)).
  { destruct (perform_all_timestamp cs NewSubsystem) as [H|[H|H]];
      fold s in H.
    - rewrite H. reflexivity.
    - apply in_map_iff in H. destruct H as (E' & Hread & Hin).
      rewrite Forall_forall in Hclock. specialize (Hclock E' Hin).
      rewrite <- Hread. unfold TimestampIsSet, TimestampIsNone.
      rewrite Hclock, (positive_not_negative _ Hclock). reflexivity.
    - rewrite H. reflexivity. }
  rewrite (IsWaitingForAdditionalTime_where_tests_agree E s Hagree
             (number_at_or_below_zero _ Hnumber)).
  rewrite !Bool.andb_true_iff. tauto.
Qed.

End Subsystem.

(** ** The properties at sample runs *)

(** C2 at the forced settings: the world is in play, nothing else asks for
    the screen, and the decision is still to show. *)
Lemma ShouldShowLoadingScreen_forced_by_settings_witness :
  let E := SampleEngine ForcedSettings PlayingInstance false 100 in
  bForceDisplayLoadingScreen (Settings E) = true
  /\ result (ShouldShowLoadingScreen SamplePrintf E NewSubsystem) = true.
Proof.
  split.
  - reflexivity.
  - apply (ShouldShowLoadingScreen_forced_by_settings SamplePrintf
             (SampleEngine ForcedSettings PlayingInstance false 100)
             NewSubsystem).
    reflexivity.
Defined.

(** C3 in the editor and in the game, the blocker clearing at clock reading
    100 with a configured hold time of 2 s and evaluations following at
    101.5 and 102.5: in the editor, with the wait switched off, the hold
    time is broadcast once with the value 0; in the game once with the
    value 2. *)
Lemma hold_time_broadcast_once_per_episode_witness :
  let loaded_in_editor :=
    object (UpdateLoadingScreen SamplePrintf
              (SampleEngine DefaultSettings LoadingInstance true 99)
              NewSubsystem) in
  let loaded_in_game :=
    object (UpdateLoadingScreen SamplePrintf (WhileLoading 99)
              NewSubsystem) in
  HoldTimeBroadcasts
    (calls (evaluate_all SamplePrintf
              [InEditor 100; InEditor 101.5; InEditor 102.5]
              loaded_in_editor))
  = [0%float]
  /\ HoldTimeBroadcasts
       (calls (evaluate_all SamplePrintf
                 [InGame 100; InGame 101.5; InGame 102.5] loaded_in_game))
     = [2%float].
Proof.
  cbv zeta. split.
  - apply (hold_time_broadcast_once_per_episode SamplePrintf
             (InEditor 100) [InEditor 101.5; InEditor 102.5]
             (object (UpdateLoadingScreen SamplePrintf
                        (SampleEngine DefaultSettings LoadingInstance
                           true 99)
                        NewSubsystem))).
    + reflexivity.
    + reflexivity.
    + repeat constructor.
  - apply (hold_time_broadcast_once_per_episode SamplePrintf
             (InGame 100) [InGame 101.5; InGame 102.5]
             (object (UpdateLoadingScreen SamplePrintf (WhileLoading 99)
                        NewSubsystem))).
    + reflexivity.
    + reflexivity.
    + repeat constructor.
Defined.

(** The condition on the clock reading is needed.  Were the clock to read
    below zero, the stored reading would itself stand for no timestamp, and
    every evaluation of the episode would stamp and broadcast again. *)
Example hold_time_broadcast_repeats_below_zero :
  HoldTimeBroadcasts
    (calls (evaluate_all SamplePrintf
              [InGame (-5); InGame (-4); InGame (-3)] NewSubsystem))
  = [2%float; 2%float; 2%float].
Proof. reflexivity. Qed.

(** C4 at the scenario of the specification: the hold starts at clock
    reading 100 and the world stops being in play at 102, inside the hold. *)
Lemma blocking_reason_cancels_hold_witness :
  let s := object (evaluate_all SamplePrintf [WhileLoading 99; InGame 100]
                     NewSubsystem) in
  let after := object (UpdateLoadingScreen SamplePrintf (WhileLoading 102) s) in
  IsWaitingForAdditionalTime (InGame 100) s = true
  /\ TimestampIsNone (LoadingScreenLastDismissedTimestamp after) = true
  /\ bIsDisplayingLoadingScreen after = true
  /\ IsWaitingForAdditionalTime (WhileLoading 102) after = false.
Proof.
  cbv zeta. split; [reflexivity|].
  apply (blocking_reason_cancels_hold SamplePrintf
           (WhileLoading 102) (WhileLoading 102)
           (object (evaluate_all SamplePrintf [WhileLoading 99; InGame 100]
                      NewSubsystem))).
  reflexivity.
Defined.

(** C5 in the editor with the default settings (hold time 2 s, wait in the
    editor off): the evaluation on which the world comes into play hides the
    screen. *)
Lemma editor_skips_hold_time_witness :
  let s := object (UpdateLoadingScreen SamplePrintf
                     (SampleEngine DefaultSettings LoadingInstance true 99)
                     NewSubsystem) in
  bIsDisplayingLoadingScreen s = true
  /\ HoldLoadingScreenTime (InEditor 100) = 0%float
  /\ bIsDisplayingLoadingScreen
       (object (UpdateLoadingScreen SamplePrintf (InEditor 100) s)) = false.
Proof.
  cbv zeta. split; [reflexivity|].
  pose proof (editor_skips_hold_time SamplePrintf (InEditor 100)
                (object (UpdateLoadingScreen SamplePrintf
                           (SampleEngine DefaultSettings LoadingInstance
                              true 99)
                           NewSubsystem))
                eq_refl eq_refl) as H.
  split; [exact (proj1 H)|].
  exact (proj1 (proj2 (proj2 H eq_refl))).
Defined.

(** C10 in the editor: the screen is up while the world loads; the first
    evaluation in play broadcasts a hold time of 0 and then hides it. *)
Lemma zero_hold_time_still_broadcast_witness :
  let s := object (UpdateLoadingScreen SamplePrintf
                     (SampleEngine DefaultSettings LoadingInstance true 99)
                     NewSubsystem) in
  calls (ShouldShowLoadingScreen SamplePrintf (InEditor 100) s)
  = [OnHoldTimeTriggeredDelegate 0]
  /\ bIsDisplayingLoadingScreen
       (object (UpdateLoadingScreen SamplePrintf (InEditor 100) s)) = false.
Proof.
  cbv zeta.
  pose proof (zero_hold_time_still_broadcast SamplePrintf (InEditor 100)
                (object (UpdateLoadingScreen SamplePrintf
                           (SampleEngine DefaultSettings LoadingInstance
                              true 99)
                           NewSubsystem))
                eq_refl eq_refl eq_refl) as H.
  split.
  - exact (proj1 (proj2 (proj2 H))).
  - exact (proj2 (proj2 (proj2 (proj2 H)))).
Defined.

(** C6, the claim as stated fails.  With the default hold time of 2 s the
    world is in play at clock readings 100 and 103: the first tick stores
    the timestamp 100 and keeps the screen up, the second finds the window
    over and hides the screen, and the timestamp stays.  The object reached
    has a timestamp and no screen. *)
Lemma timestamp_set_while_hidden :
  ~ (forall s : ULoadingScreenSubsystem,
       reachable SamplePrintf s ->
       TimestampIsSet (LoadingScreenLastDismissedTimestamp s) = true ->
       bIsDisplayingLoadingScreen s = true).
Proof.
  intros Hinv.
  specialize
    (Hinv (object (perform_all SamplePrintf
                     [CallTick (InGame 100) 0; CallTick (InGame 103) 0]
                     NewSubsystem))).
  assert (Hhidden : false = true).
  { apply Hinv.
    - exists [CallTick (InGame 100) 0; CallTick (InGame 103) 0]. reflexivity.
    - reflexivity. }
  discriminate Hhidden.
Qed.

(** C6 as amended, at the same run and at a run in the editor.  In the
    game the latest evaluation, at clock reading 103, is outside the window
    of 2 s that began at 100; in the editor the effective hold duration is 0
    and the evaluation at 100 that takes the timestamp is outside the
    window already.  Both leave a timestamp and the screen hidden. *)
Lemma timestamp_set_displayed_iff_in_window_witness :
  let in_game :=
    [CallTick (InGame 100) 0; CallTick (InGame 103) 0] in
  let in_editor := [CallTick (InEditor 100) 0] in
  let s := object (perform_all SamplePrintf in_game NewSubsystem) in
  let s' := object (perform_all SamplePrintf in_editor NewSubsystem) in
  (LoadingScreenLastDismissedTimestamp s = 100%float
   /\ bIsDisplayingLoadingScreen s = false
   /\ exists E,
        last_evaluation in_game = Some E
        /\ bIsDisplayingLoadingScreen s
           = InGraceWindow E (LoadingScreenLastDismissedTimestamp s)
        /\ (bIsDisplayingLoadingScreen s = true <->
            (0 <? effectiveHoldDuration E) = true
            /\ (Seconds E - LoadingScreenLastDismissedTimestamp s
                <? effectiveHoldDuration E) = true))
  /\ (LoadingScreenLastDismissedTimestamp s' = 100%float
      /\ bIsDisplayingLoadingScreen s' = false
      /\ exists E,
           last_evaluation in_editor = Some E
           /\ bIsDisplayingLoadingScreen s'
              = InGraceWindow E (LoadingScreenLastDismissedTimestamp s')
           /\ (bIsDisplayingLoadingScreen s' = true <->
               (0 <? effectiveHoldDuration E) = true
               /\ (Seconds E - LoadingScreenLastDismissedTimestamp s'
                   <? effectiveHoldDuration E) = true)).
Proof.
  cbv zeta. split; (split; [reflexivity|]); (split; [reflexivity|]).
  - apply (timestamp_set_displayed_iff_in_window SamplePrintf
             [CallTick (InGame 100) 0; CallTick (InGame 103) 0]).
    reflexivity.
  - apply (timestamp_set_displayed_iff_in_window SamplePrintf
             [CallTick (InEditor 100) 0]).
    reflexivity.
Defined.

(** C7 at a level load followed by the hold: at clock reading 101 the
    screen is displayed, the timestamp is 100 and the configured hold time
    is 2 s, and the subsystem reports that it is waiting. *)
Lemma IsWaitingForAdditionalTime_iff_witness :
  let cs := [CallTick (WhileLoading 99) 0; CallTick (InGame 100) 0;
             CallTick (InGame 101) 0] in
  let s := object (perform_all SamplePrintf cs NewSubsystem) in
  IsWaitingForAdditionalTime (InGame 101) s = true
  /\ (IsWaitingForAdditionalTime (InGame 101) s = true <->
      bIsDisplayingLoadingScreen s = true
      /\ TimestampIsSet (LoadingScreenLastDismissedTimestamp s) = true
      /\ (0 <? HoldLoadingScreenAdditionalSecs (Settings (InGame 101)))
         = true).
Proof.
  cbv zeta. split; [reflexivity|].
  apply (IsWaitingForAdditionalTime_iff SamplePrintf
           [CallTick (WhileLoading 99) 0; CallTick (InGame 100) 0;
            CallTick (InGame 101) 0]
           (InGame 101)).
  - repeat constructor.
  - reflexivity.
Defined.

(** The condition on the clock readings is needed.  Were a first tick in
    play to read the clock at exactly 0, with the default hold time of 2 s,
    [ShouldShowLoadingScreen] would store the timestamp 0.0 and treat it as
    a timestamp (its test for none is [< 0.0]): it keeps the screen up at
    clock reading 1.  [IsWaitingForAdditionalTime], whose test is [> 0.0],
    would answer false. *)
Example IsWaitingForAdditionalTime_zero_timestamp :
  let s := object (Tick SamplePrintf (InGame 0) 0 NewSubsystem) in
  bIsDisplayingLoadingScreen s = true
  /\ LoadingScreenLastDismissedTimestamp s = 0%float
  /\ TimestampIsSet (LoadingScreenLastDismissedTimestamp s) = true
  /\ (0 <? HoldLoadingScreenAdditionalSecs (Settings (InGame 1))) = true
  /\ ShouldShowLoadingScreen SamplePrintf (InGame 1) s
     = (true, s, [bDisableWorldRendering false])
  /\ IsWaitingForAdditionalTime (InGame 1) s = false.
Proof. cbv zeta. repeat split. Qed.

(** ** The further properties at sample runs *)

(** A level load and the hold after it: the widget goes into the viewport
    at clock reading 99 and comes out again at 103. *)
Lemma viewport_calls_in_step_witness :
  let cs := [CallTick (WhileLoading 99) 0; CallTick (InGame 100) 0;
             CallTick (InGame 103) 0] in
  LoadingScreenWidget (object (perform_all SamplePrintf cs NewSubsystem))
  = None
  /\ ViewportAttached None (calls (perform_all SamplePrintf cs NewSubsystem))
     = Some
         (LoadingScreenWidget
            (object (perform_all SamplePrintf cs NewSubsystem))).
Proof.
  cbv zeta. split; [reflexivity|].
  apply (viewport_calls_in_step SamplePrintf
           [CallTick (WhileLoading 99) 0; CallTick (InGame 100) 0;
            CallTick (InGame 103) 0]).
  repeat constructor.
Defined.

(** The same run broadcasts true and then false, each time with nothing
    attached to the viewport. *)
Lemma no_widget_attached_at_visibility_broadcast_witness :
  let cs := [CallTick (WhileLoading 99) 0; CallTick (InGame 100) 0;
             CallTick (InGame 103) 0] in
  AttachedAtBroadcasts None
    (calls (perform_all SamplePrintf cs NewSubsystem))
  = [(true, None); (false, None)]
  /\ Forall (fun at_broadcast => snd at_broadcast = None)
       (AttachedAtBroadcasts None
          (calls (perform_all SamplePrintf cs NewSubsystem))).
Proof.
  cbv zeta. split; [reflexivity|].
  apply (no_widget_attached_at_visibility_broadcast SamplePrintf
           [CallTick (WhileLoading 99) 0; CallTick (InGame 100) 0;
            CallTick (InGame 103) 0]).
  repeat constructor.
Defined.

(** Game logic asks for the screen with the reason "cutscene" while the
    world is in play. *)
Lemma game_logic_request_shows_screen_witness :
  let asked :=
    object (ForceDisplayStateByGameLogic true "cutscene" NewSubsystem) in
  let r := UpdateLoadingScreen SamplePrintf (InGame 100) asked in
  bIsDisplayingLoadingScreen (object r) = true
  /\ LoadingScreenStateReason (object r) = "cutscene"
  /\ LoadingScreenLastDismissedTimestamp (object r) = (-1)%float
  /\ VisibilityBroadcasts (calls r) = [true].
Proof.
  cbv zeta.
  apply (game_logic_request_shows_screen SamplePrintf (InGame 100)
           "cutscene" NewSubsystem);
    reflexivity.
Defined.

(** The editor with the default settings, the world coming into play. *)
Lemma editor_never_waits_witness :
  let s := object (UpdateLoadingScreen SamplePrintf
                     (SampleEngine DefaultSettings LoadingInstance true 99)
                     NewSubsystem) in
  IsWaitingForAdditionalTime (InEditor 100)
    (object (UpdateLoadingScreen SamplePrintf (InEditor 100) s))
  = false.
Proof.
  cbv zeta.
  apply (editor_never_waits SamplePrintf (InEditor 100) (InEditor 100));
    reflexivity.
Defined.

(** The hold that started at clock reading 100 is over at 103. *)
Lemma hidden_after_evaluation_witness :
  let s := object (evaluate_all SamplePrintf [WhileLoading 99; InGame 100]
                     NewSubsystem) in
  let r := UpdateLoadingScreen SamplePrintf (InGame 103) s in
  bIsDisplayingLoadingScreen s = true
  /\ LoadingScreenStateReason (object r) = "No reason to display."
  /\ LoadingScreenLastDismissedTimestamp (object r) = 100%float.
Proof.
  cbv zeta. split; [reflexivity|].
  pose proof (hidden_after_evaluation SamplePrintf (InGame 103)
                (object (evaluate_all SamplePrintf
                           [WhileLoading 99; InGame 100] NewSubsystem))
                eq_refl) as H.
  split; [exact (proj1 (proj2 H)) | exact (proj1 (proj2 (proj2 H)))].
Defined.

(** The hold started at clock reading 100; the world stops being in play at
    102 and is in play again at 104: the hold time is broadcast again and
    the timestamp is 104. *)
Lemma hold_restarts_after_blocking_reason_witness :
  let s := object (evaluate_all SamplePrintf [WhileLoading 99; InGame 100]
                     NewSubsystem) in
  let r := evaluate_all SamplePrintf [WhileLoading 102; InGame 104] s in
  LoadingScreenLastDismissedTimestamp s = 100%float
  /\ HoldTimeBroadcasts (calls r) = [2%float]
  /\ LoadingScreenLastDismissedTimestamp (object r) = 104%float.
Proof.
  cbv zeta. split; [reflexivity|].
  apply (hold_restarts_after_blocking_reason SamplePrintf
           (WhileLoading 102) (InGame 104)
           (object (evaluate_all SamplePrintf [WhileLoading 99; InGame 100]
                      NewSubsystem)));
    reflexivity.
Defined.

(** Two ticks in play at clock readings 100 and 101: the subsystem waits,
    and both readings of the timestamp say that it is set. *)
Lemma positive_clock_readings_agree_witness :
  let s := object (perform_all SamplePrintf
                     [CallTick (InGame 100) 0; CallTick (InGame 101) 0]
                     NewSubsystem) in
  IsWaitingForAdditionalTime (InGame 101) s = true
  /\ (0 <? LoadingScreenLastDismissedTimestamp s)
     = TimestampIsSet (LoadingScreenLastDismissedTimestamp s).
Proof.
  cbv zeta. split; [reflexivity|].
  apply (positive_clock_readings_agree SamplePrintf
           [CallTick (InGame 100) 0; CallTick (InGame 101) 0]).
  repeat constructor.
Defined.
